(** * Luna SDK render hardware interface

  A shallow embedding of three pieces of the RHI module:
  - the Metal command buffer ([Metal/CommandBuffer.cpp]),
  - the Metal descriptor set ([Metal/DescriptorSet.cpp]),
  - the D3D12 resource heap ([D3D12/ResourceHeap.cpp]).

  Objects the C++ code mutates in place are records passed from state to
  state; calls into the graphics API are appended to a trace or, where the
  code uses their result, taken from a backend given as section variables. *)

From Stdlib Require Import ZArith Lia.
From stdpp Require Import base option list gmap strings.

Local Open Scope Z_scope.

(** ** Runtime: fixed-width integers, error codes, contract checks *)
Module Runtime.

(** [u32] and [u64] values are integers in range; arithmetic on them is
    arithmetic on [Z] followed by the wrap of the result type. *)
Definition wrap32 (z : Z) : Z := z mod 2 ^ 32.
Definition wrap64 (z : Z) : Z := z mod 2 ^ 64.

Definition handle := Z.

(** A 32-bit float travels through the command buffer untouched; it is
    kept as its bit pattern. *)
Definition f32 := Z.

Inductive ErrCode :=
| bad_arguments
| bad_platform_call
| not_supported
| interrupted
| platform_error (code : Z).

Inductive R (A : Type) :=
| ok (a : A)
| failed (e : ErrCode).
Global Arguments ok {A} a.
Global Arguments failed {A} e.

Definition RV := R unit.

(** What a call with contract checks can do: return, stop in
    [OS::assert_fail] (which prints the message and calls [abort]), or
    dereference a null pointer. *)
Inductive outcome (A : Type) :=
| Returns (a : A)
| AssertFail (msg : string)
| Undefined.
Global Arguments Returns {A} a.
Global Arguments AssertFail {A} msg.
Global Arguments Undefined {A}.

Definition assert_fail {A} (msg : string) : outcome A := AssertFail msg.

(** Modelled from the spec: the macro [lucheck_msg] is declared in a header
    outside the files embedded here.  Programmer-error
    preconditions "are asserted and fatal" when contract checks are
    compiled in: a failed condition ends in [assert_fail], a true one lets
    the function body run. *)
Definition lucheck_msg {A} (condition : bool) (msg : string)
    (body : outcome A) : outcome A :=
  if condition then body else assert_fail msg.

Definition non_null {A} (p : option A) : bool :=
  match p with Some _ => true | None => false end.

Definition is_null {A} (p : option A) : bool := negb (non_null p).

End Runtime.

(** ** Metal resources *)
Module Resource.
Import Runtime.

(** Modelled from the spec: the [Format] enumeration lives in a header
    outside the files embedded here; the enumerators kept are the ones
    the code at hand and the spec name, every other one is
    [other_format]. *)
Inductive Format :=
| unknown
| r16_uint
| r32_uint
| r32_float
| other_format (id : Z).

Global Instance Format_eq_dec : EqDecision Format.
Proof. solve_decision. Defined.

(** [Buffer]: the Metal buffer handle, [m_desc.size], and the address
    [m_buffer->gpuAddress()] reports. *)
Record Buffer := {
  m_buffer : handle;
  size : Z;
  gpuAddress : Z
}.

(** [Texture]: the Metal texture handle, [m_desc.width], [m_desc.height],
    and the id [m_texture->gpuResourceID()] reports. *)
Record Texture := {
  m_texture : handle;
  width : Z;
  height : Z;
  gpuResourceID : Z
}.

(** The object behind an [IResource*]. *)
Inductive IResource :=
| buffer_object (b : Buffer)
| texture_object (t : Texture).

(** Modelled from the spec: [cast_object<T>] is declared in a header
    outside the files embedded here; it dispatches on "the runtime type
    of the two resource handles" and yields null for another type. *)
Definition cast_object_Buffer (r : IResource) : option Buffer :=
  match r with buffer_object b => Some b | texture_object _ => None end.

Definition cast_object_Texture (r : IResource) : option Texture :=
  match r with texture_object t => Some t | buffer_object _ => None end.

End Resource.


(** ** Metal descriptor set ([Metal/DescriptorSet.cpp]) *)
Module DescriptorSet.
Import Runtime.

Inductive DescriptorType :=
| uniform_buffer_view
| read_buffer_view
| read_write_buffer_view
| read_texture_view
| read_write_texture_view
| sampler.

(** One binding record of a layout. *)
Record DescriptorSetLayoutBinding := {
  layout_type : DescriptorType;
  layout_binding_slot : Z;
  num_descs : Z;
  shader_visibility_flags : Z
}.

(** The layout fields [update_descriptors] reads: the binding records and,
    in a parallel vector, the first argument slot of each binding. *)
Record DescriptorSetLayout := {
  layout_bindings : list DescriptorSetLayoutBinding;
  m_argument_offsets : list Z;
  m_num_arguments : Z;
  m_flags : Z
}.

(** [first_element] is a [u64], [element_size] a [u32]. *)
Record BufferViewDesc := {
  buffer : Resource.Buffer;
  first_element : Z;
  element_count : Z;
  element_size : Z;
  format : Resource.Format
}.

Record TextureViewDesc := {
  texture : Resource.Texture;
  view_type : Z;
  view_format : Resource.Format;
  mip_slice : Z;
  mip_size : Z;
  array_slice : Z;
  array_size : Z
}.

Inductive BorderColor :=
| float_0000 | int_0000
| float_0001 | int_0001
| float_1111 | int_1111.

(** Filters, address modes and compare functions are enumerations kept as
    their integer values. *)
Record SamplerDesc := {
  min_filter : Z;
  mag_filter : Z;
  mip_filter : Z;
  address_u : Z;
  address_v : Z;
  address_w : Z;
  anisotropy_enable : bool;
  max_anisotropy : Z;
  compare_enable : bool;
  compare_function : Z;
  min_lod : f32;
  max_lod : f32;
  border_color : BorderColor
}.

Inductive MTLSamplerBorderColor :=
| SamplerBorderColorTransparentBlack
| SamplerBorderColorOpaqueBlack
| SamplerBorderColorOpaqueWhite.

Record MTLSamplerDescriptor := {
  minFilter : Z;
  magFilter : Z;
  mipFilter : Z;
  maxAnisotropy : Z;
  compareFunction : Z;
  lodMinClamp : f32;
  lodMaxClamp : f32;
  lodAverage : bool;
  borderColor : MTLSamplerBorderColor;
  normalizedCoordinates : bool;
  sAddressMode : Z;
  tAddressMode : Z;
  rAddressMode : Z;
  supportArgumentBuffers : bool
}.

(** A Metal sampler state: its handle and the id [gpuResourceID()]
    reports. *)
Record MTLSamplerState := {
  sampler_state : handle;
  sampler_gpuResourceID : Z
}.

Record WriteDescriptorSet := {
  binding_slot : Z;
  first_array_index : Z;
  type : DescriptorType;
  buffer_views : list BufferViewDesc;
  texture_views : list TextureViewDesc;
  samplers : list SamplerDesc
}.

(** Per binding: the Metal resources bound to its descriptors (null until
    written), and how shaders use them. *)
Record DescriptorSetBinding := {
  m_resources : list (option handle);
  m_usages : Z;
  m_render_stages : Z
}.

(** [data] is the content of the argument buffer [m_buffer], one 64-bit
    word per argument slot. *)
Record DescriptorSet := {
  m_layout : DescriptorSetLayout;
  m_buffer : handle;
  data : gmap Z Z;
  m_bindings : list DescriptorSetBinding;
  m_samplers : gmap Z MTLSamplerState
}.

(** [data[slot] = value] *)
Definition store_data (slot value : Z) (ds : DescriptorSet) : DescriptorSet :=
  {| m_layout := m_layout ds; m_buffer := m_buffer ds;
     data := <[slot := value]> (data ds);
     m_bindings := m_bindings ds; m_samplers := m_samplers ds |}.

Definition set_resource (index : Z) (res : handle) (b : DescriptorSetBinding)
    : DescriptorSetBinding :=
  {| m_resources := <[Z.to_nat index := Some res]> (m_resources b);
     m_usages := m_usages b; m_render_stages := m_render_stages b |}.

(** [m_bindings[binding_index].m_resources[index] = res].  The source
    stores unchecked: past the end of either vector its behaviour is
    undefined.  Here such a store leaves the vectors as they are, and the
    same holds for a word of the argument buffer past its end, [data] being
    a map over all slots; [stores_in_range] below is the condition under
    which no store of a write is of that kind. *)
Definition store_resource (binding_index : nat) (index : Z) (res : handle)
    (ds : DescriptorSet) : DescriptorSet :=
  {| m_layout := m_layout ds; m_buffer := m_buffer ds; data := data ds;
     m_bindings := alter (set_resource index res) binding_index (m_bindings ds);
     m_samplers := m_samplers ds |}.

(** [m_samplers.insert_or_assign(key, s)] *)
Definition store_sampler (key : Z) (s : MTLSamplerState) (ds : DescriptorSet)
    : DescriptorSet :=
  {| m_layout := m_layout ds; m_buffer := m_buffer ds; data := data ds;
     m_bindings := m_bindings ds;
     m_samplers := <[key := s]> (m_samplers ds) |}.

(** The scan of [update_descriptors] for the binding record of a write: the
    index of the first record with the slot, or the number of records when
    there is none. *)
Fixpoint find_binding_index (bindings : list DescriptorSetLayoutBinding)
    (slot : Z) (binding_index : nat) : nat :=
  match bindings with
  | [] => binding_index
  | b :: rest =>
      if decide (slot = layout_binding_slot b) then binding_index
      else find_binding_index rest slot (S binding_index)
  end.

(** [m_argument_offsets[binding_index] + write.first_array_index], a sum of
    64-bit unsigned integers.  A layout has one offset per binding record;
    a read past the end of the vector is 0 here. *)
Definition argument_offset_of (layout : DescriptorSetLayout)
    (binding_index : nat) (write : WriteDescriptorSet) : Z :=
  wrap64 (nth binding_index (m_argument_offsets layout) 0
          + first_array_index write).

(** The number of descriptors a write carries: the views the
    [switch(write.type)] of [update_descriptors] loops over. *)
Definition descriptor_count (write : WriteDescriptorSet) : nat :=
  match type write with
  | uniform_buffer_view | read_buffer_view | read_write_buffer_view =>
      length (buffer_views write)
  | read_texture_view | read_write_texture_view =>
      length (texture_views write)
  | sampler => length (samplers write)
  end.

(** Every store of a write lies within the vector it goes to: the layout
    has an argument offset for the binding, the argument slots
    [argument_offset .. argument_offset + count) are among the
    [m_num_arguments] words the argument buffer has at least, and, for a
    buffer or texture write, the binding has the resource entries
    [first_array_index .. first_array_index + count). *)
Definition stores_in_range (ds : DescriptorSet) (write : WriteDescriptorSet)
    : bool :=
  let binding_index :=
    find_binding_index (layout_bindings (m_layout ds)) (binding_slot write) 0 in
  let last := first_array_index write + Z.of_nat (descriptor_count write) in
  (0 <=? first_array_index write)
  && match m_argument_offsets (m_layout ds) !! binding_index with
     | Some offset =>
         (0 <=? offset) && (offset + last <=? m_num_arguments (m_layout ds))
     | None => false
     end
  && match type write with
     | sampler => true
     | _ =>
         match m_bindings ds !! binding_index with
         | Some b => last <=? Z.of_nat (length (m_resources b))
         | None => false
         end
     end.

Section Backend.

(** Helpers declared in headers outside the files embedded here. *)
Variable bits_per_pixel : Resource.Format -> Z.
Variable validate_texture_view_desc :
  Resource.Texture -> TextureViewDesc -> TextureViewDesc.
Variable require_view_object : Resource.Texture -> TextureViewDesc -> bool.
Variable encode_min_mag_filter : Z -> Z.
Variable encode_mip_filter : Z -> Z.
Variable encode_compare_function : Z -> Z.
Variable encode_address_mode : Z -> Z.
Variable CompareFunctionNever : Z.

(** Calls that can fail: [Texture::get_texture_view], answered with the
    resource id of the view's Metal texture, and the device's
    [newSamplerState]. *)
Variable get_texture_view : Resource.Texture -> TextureViewDesc -> R Z.
Variable newSamplerState : MTLSamplerDescriptor -> option MTLSamplerState.

(** [case DescriptorType::uniform_buffer_view] *)
Definition uniform_data_offset (view : BufferViewDesc) : Z :=
  first_element view.

(** [case read_buffer_view: case read_write_buffer_view:] *)
Definition read_data_offset (view : BufferViewDesc) : Z :=
  if decide (format view = Resource.unknown)
  then wrap64 (element_size view * first_element view)
  else wrap64 (bits_per_pixel (format view) * first_element view) / 8.

(** The loop over [write.buffer_views], from index [i] on. *)
Fixpoint write_buffer_views (data_offset : BufferViewDesc -> Z)
    (binding_index : nat) (argument_offset : Z) (write : WriteDescriptorSet)
    (i : nat) (views : list BufferViewDesc) (ds : DescriptorSet)
    : DescriptorSet :=
  match views with
  | [] => ds
  | view :: rest =>
      let buf := buffer view in
      let ds := store_data (wrap64 (argument_offset + Z.of_nat i))
                  (wrap64 (Resource.gpuAddress buf + data_offset view)) ds in
      let ds := store_resource binding_index
                  (wrap64 (first_array_index write + Z.of_nat i))
                  (Resource.m_buffer buf) ds in
      write_buffer_views data_offset binding_index argument_offset write
        (S i) rest ds
  end.

(** The loop over [write.texture_views]; a failed [get_texture_view] leaves
    the function with its error. *)
Fixpoint write_texture_views (binding_index : nat) (argument_offset : Z)
    (write : WriteDescriptorSet) (i : nat) (views : list TextureViewDesc)
    (ds : DescriptorSet) : DescriptorSet * RV :=
  match views with
  | [] => (ds, ok tt)
  | v :: rest =>
      let tex := texture v in
      let view := validate_texture_view_desc tex v in
      let id :=
        if require_view_object tex view then get_texture_view tex view
        else ok (Resource.gpuResourceID tex) in
      match id with
      | failed e => (ds, failed e)
      | ok id =>
          let ds := store_data (wrap64 (argument_offset + Z.of_nat i)) id ds in
          let ds := store_resource binding_index
                      (wrap64 (first_array_index write + Z.of_nat i))
                      (Resource.m_texture tex) ds in
          write_texture_views binding_index argument_offset write (S i) rest ds
      end
  end.

Definition sampler_descriptor (view : SamplerDesc) : MTLSamplerDescriptor :=
  {| minFilter := encode_min_mag_filter (min_filter view);
     magFilter := encode_min_mag_filter (mag_filter view);
     mipFilter := encode_mip_filter (mip_filter view);
     maxAnisotropy :=
       if anisotropy_enable view then max_anisotropy view else 1;
     compareFunction :=
       if compare_enable view
       then encode_compare_function (compare_function view)
       else CompareFunctionNever;
     lodMinClamp := min_lod view;
     lodMaxClamp := max_lod view;
     lodAverage := false;
     borderColor :=
       match border_color view with
       | float_0000 | int_0000 => SamplerBorderColorTransparentBlack
       | float_0001 | int_0001 => SamplerBorderColorOpaqueBlack
       | float_1111 | int_1111 => SamplerBorderColorOpaqueWhite
       end;
     normalizedCoordinates := true;
     sAddressMode := encode_address_mode (address_u view);
     tAddressMode := encode_address_mode (address_v view);
     rAddressMode := encode_address_mode (address_w view);
     supportArgumentBuffers := true |}.

(** The loop over [write.samplers]; a sampler Metal does not create leaves
    the function with [bad_platform_call]. *)
Fixpoint write_samplers (argument_offset : Z) (write : WriteDescriptorSet)
    (i : nat) (views : list SamplerDesc) (ds : DescriptorSet)
    : DescriptorSet * RV :=
  match views with
  | [] => (ds, ok tt)
  | view :: rest =>
      match newSamplerState (sampler_descriptor view) with
      | None => (ds, failed bad_platform_call)
      | Some s =>
          let key := wrap32 (wrap32 (binding_slot write
                                      + first_array_index write)
                             + wrap32 (Z.of_nat i)) in
          let ds := store_sampler key s ds in
          let ds := store_data (wrap64 (argument_offset + Z.of_nat i))
                      (sampler_gpuResourceID s) ds in
          write_samplers argument_offset write (S i) rest ds
      end
  end.

(** The [switch(write.type)] of [update_descriptors]. *)
Definition write_descriptors (binding_index : nat) (write : WriteDescriptorSet)
    (ds : DescriptorSet) : DescriptorSet * RV :=
  let argument_offset := argument_offset_of (m_layout ds) binding_index write in
  match type write with
  | uniform_buffer_view =>
      (write_buffer_views uniform_data_offset binding_index argument_offset
         write 0 (buffer_views write) ds, ok tt)
  | read_buffer_view | read_write_buffer_view =>
      (write_buffer_views read_data_offset binding_index argument_offset
         write 0 (buffer_views write) ds, ok tt)
  | read_texture_view | read_write_texture_view =>
      write_texture_views binding_index argument_offset write 0
        (texture_views write) ds
  | sampler =>
      write_samplers argument_offset write 0 (samplers write) ds
  end.

(** [DescriptorSet::update_descriptors]: the set as the call leaves it, and
    the value returned. *)
Fixpoint update_descriptors (ds : DescriptorSet)
    (writes : list WriteDescriptorSet) : DescriptorSet * RV :=
  match writes with
  | [] => (ds, ok tt)
  | write :: rest =>
      let bindings := layout_bindings (m_layout ds) in
      let binding_index := find_binding_index bindings (binding_slot write) 0 in
      if decide (binding_index = length bindings)
      then (ds, failed bad_arguments)
      else
        match write_descriptors binding_index write ds with
        | (ds, ok _) => update_descriptors ds rest
        | (ds, failed e) => (ds, failed e)
        end
  end.

(** *** Statements about [update_descriptors] *)

(** What the spec says of the address of a buffer view: the base address
    plus [first_element] strides, the stride being [element_size] for the
    format [unknown] and [bits_per_pixel / 8] otherwise. *)
Definition offset_in_strides (view : BufferViewDesc) : Z :=
  if decide (format view = Resource.unknown)
  then first_element view * element_size view
  else first_element view * (bits_per_pixel (format view) / 8).


Definition backend_error (e : ErrCode) : Prop :=
  (exists tex view, get_texture_view tex view = failed e)
  \/ (e = bad_platform_call /\ exists d, newSamplerState d = None).

(** A write whose slot no binding record of the layout has. *)
Definition unresolved (ds : DescriptorSet) (write : WriteDescriptorSet)
    : Prop :=
  Forall (λ b, layout_binding_slot b ≠ binding_slot write)
    (layout_bindings (m_layout ds)).

Definition resolved (ds : DescriptorSet) (write : WriteDescriptorSet) : Prop :=
  Exists (λ b, layout_binding_slot b = binding_slot write)
    (layout_bindings (m_layout ds)).

(** What the spec says of a batch with an unresolved slot: the call returns
    [bad_arguments]. *)
Definition unresolved_slot_is_bad_arguments (ds : DescriptorSet)
    (writes : list WriteDescriptorSet) : Prop :=
  Exists (unresolved ds) writes ->
  (update_descriptors ds writes).2 = failed bad_arguments.

End Backend.

(** *** A sample set and a sample backend *)

Definition sample_bits_per_pixel (f : Resource.Format) : Z :=
  match f with
  | Resource.unknown => 0
  | Resource.r16_uint => 16
  | Resource.r32_uint => 32
  | Resource.r32_float => 32
  | Resource.other_format id => id
  end.

Definition sample_validate (tex : Resource.Texture) (view : TextureViewDesc)
    : TextureViewDesc := view.

Definition sample_require_view_object (tex : Resource.Texture)
    (view : TextureViewDesc) : bool := false.

Definition sample_get_texture_view (tex : Resource.Texture)
    (view : TextureViewDesc) : R Z := ok (Resource.gpuResourceID tex).

(** A device that creates every sampler, and one that creates none. *)
Definition sample_newSamplerState (d : MTLSamplerDescriptor)
    : option MTLSamplerState :=
  Some {| sampler_state := 30; sampler_gpuResourceID := 31 |}.

Definition failing_newSamplerState (d : MTLSamplerDescriptor)
    : option MTLSamplerState := None.

Definition sample_layout : DescriptorSetLayout :=
  {| layout_bindings :=
       [ {| layout_type := uniform_buffer_view; layout_binding_slot := 0;
            num_descs := 1; shader_visibility_flags := 1 |};
         {| layout_type := read_buffer_view; layout_binding_slot := 1;
            num_descs := 1; shader_visibility_flags := 1 |};
         {| layout_type := sampler; layout_binding_slot := 2;
            num_descs := 1; shader_visibility_flags := 1 |} ];
     m_argument_offsets := [0; 1; 2];
     m_num_arguments := 3;
     m_flags := 0 |}.

Definition sample_set : DescriptorSet :=
  {| m_layout := sample_layout; m_buffer := 40; data := ∅;
     m_bindings :=
       [ {| m_resources := [None]; m_usages := 1; m_render_stages := 1 |};
         {| m_resources := [None]; m_usages := 1; m_render_stages := 1 |};
         {| m_resources := []; m_usages := 0; m_render_stages := 0 |} ];
     m_samplers := ∅ |}.

Definition sample_uniforms : Resource.Buffer :=
  {| Resource.m_buffer := 41; Resource.size := 65536;
     Resource.gpuAddress := 1048576 |}.

(** A uniform buffer view at byte offset 256, 64 bytes long. *)
Definition uniform_view : BufferViewDesc :=
  {| buffer := sample_uniforms; first_element := 256; element_count := 0;
     element_size := 64; format := Resource.unknown |}.

(** A typed view from element 10 on, four bytes to the element. *)
Definition typed_view : BufferViewDesc :=
  {| buffer := sample_uniforms; first_element := 10; element_count := 100;
     element_size := 0; format := Resource.r32_float |}.

Definition uniform_write : WriteDescriptorSet :=
  {| binding_slot := 0; first_array_index := 0; type := uniform_buffer_view;
     buffer_views := [uniform_view]; texture_views := []; samplers := [] |}.

Definition typed_write : WriteDescriptorSet :=
  {| binding_slot := 1; first_array_index := 0; type := read_buffer_view;
     buffer_views := [typed_view]; texture_views := []; samplers := [] |}.

Definition sample_sampler : SamplerDesc :=
  {| min_filter := 0; mag_filter := 0; mip_filter := 0;
     address_u := 0; address_v := 0; address_w := 0;
     anisotropy_enable := false; max_anisotropy := 1;
     compare_enable := false; compare_function := 0;
     min_lod := 0; max_lod := 0; border_color := float_0000 |}.

Definition sampler_write : WriteDescriptorSet :=
  {| binding_slot := 2; first_array_index := 0; type := sampler;
     buffer_views := []; texture_views := []; samplers := [sample_sampler] |}.

(** A write to slot 9, which [sample_layout] does not have. *)
Definition stray_write : WriteDescriptorSet :=
  {| binding_slot := 9; first_array_index := 0; type := uniform_buffer_view;
     buffer_views := [uniform_view]; texture_views := []; samplers := [] |}.

Definition sample_update (newSamplerState :
    MTLSamplerDescriptor -> option MTLSamplerState) :=
  update_descriptors sample_bits_per_pixel sample_validate
    sample_require_view_object id id id id 0 sample_get_texture_view
    newSamplerState.

End DescriptorSet.

(** ** Metal command buffer ([Metal/CommandBuffer.cpp]) *)
Module CommandBuffer.
Import Runtime.

(** *** Portable descriptions handed to the command buffer *)

(** Modelled from the spec: [LoadOp] and [StoreOp] are declared in a header
    outside the files embedded here; a store is "plain store/discard per
    StoreOp". *)
Inductive LoadOp := LoadOp_dont_care | LoadOp_load | LoadOp_clear.
Inductive StoreOp := StoreOp_dont_care | StoreOp_store.

Record Float4U := { x : f32; y : f32; z : f32; w : f32 }.

Record ColorAttachment := {
  texture : option Resource.Texture;
  load_op : LoadOp;
  store_op : StoreOp;
  clear_value : Float4U;
  mip_slice : Z;
  array_slice : Z
}.

Record ResolveAttachment := {
  resolve_texture : option Resource.Texture;
  resolve_mip_slice : Z;
  resolve_array_slice : Z
}.

Record DepthStencilAttachment := {
  ds_texture : option Resource.Texture;
  depth_load_op : LoadOp;
  depth_store_op : StoreOp;
  depth_clear_value : f32;
  stencil_load_op : LoadOp;
  stencil_store_op : StoreOp;
  stencil_clear_value : Z;
  ds_mip_slice : Z;
  ds_array_slice : Z
}.

(** [color_attachments] and [resolve_attachments] are arrays of eight
    entries; an entry the caller never assigned is default-constructed, with
    a null texture. *)
Record RenderPassDesc := {
  color_attachments : list ColorAttachment;
  resolve_attachments : list ResolveAttachment;
  depth_stencil_attachment : DepthStencilAttachment;
  occlusion_query_heap : option handle;
  array_size : Z;
  sample_count : Z
}.

Definition null_color_attachment : ColorAttachment :=
  {| texture := None; load_op := LoadOp_dont_care;
     store_op := StoreOp_dont_care;
     clear_value := {| x := 0; y := 0; z := 0; w := 0 |};
     mip_slice := 0; array_slice := 0 |}.

Definition null_resolve_attachment : ResolveAttachment :=
  {| resolve_texture := None; resolve_mip_slice := 0;
     resolve_array_slice := 0 |}.

Definition null_depth_stencil_attachment : DepthStencilAttachment :=
  {| ds_texture := None;
     depth_load_op := LoadOp_dont_care; depth_store_op := StoreOp_dont_care;
     depth_clear_value := 0;
     stencil_load_op := LoadOp_dont_care;
     stencil_store_op := StoreOp_dont_care;
     stencil_clear_value := 0; ds_mip_slice := 0; ds_array_slice := 0 |}.

Definition color_attachment_at (desc : RenderPassDesc) (i : nat)
    : ColorAttachment :=
  nth i (color_attachments desc) null_color_attachment.

Definition resolve_attachment_at (desc : RenderPassDesc) (i : nat)
    : ResolveAttachment :=
  nth i (resolve_attachments desc) null_resolve_attachment.

Record IndexBufferView := {
  buffer : option Resource.Buffer;
  offset : Z;
  view_size : Z;
  format : Resource.Format
}.

Definition null_index_buffer_view : IndexBufferView :=
  {| buffer := None; offset := 0; view_size := 0;
     format := Resource.unknown |}.

(** Barrier requests name a resource and a state pair; states and flags are
    bit masks. *)
Record BufferBarrier := {
  barrier_buffer : Resource.Buffer;
  buffer_before : Z;
  buffer_after : Z;
  buffer_flags : Z
}.

Record TextureBarrier := {
  barrier_texture : Resource.Texture;
  subresource : Z * Z;
  texture_before : Z;
  texture_after : Z;
  texture_flags : Z
}.

(** *** The Metal side *)

Inductive MTLLoadAction :=
| LoadActionDontCare | LoadActionLoad | LoadActionClear.

Inductive MTLStoreAction :=
| StoreActionDontCare
| StoreActionStore
| StoreActionMultisampleResolve
| StoreActionStoreAndMultisampleResolve.

Inductive MTLIndexType := IndexTypeUInt16 | IndexTypeUInt32.

Global Instance MTLIndexType_eq_dec : EqDecision MTLIndexType.
Proof. solve_decision. Defined.

Record RenderPassColorAttachmentDescriptor := {
  ca_texture : handle;
  ca_level : Z;
  ca_slice : Z;
  ca_loadAction : MTLLoadAction;
  ca_storeAction : MTLStoreAction;
  ca_resolve : option (handle * Z * Z);
  ca_clearColor : Float4U
}.

(** The depth and the stencil descriptor of a fresh render pass descriptor
    exist already; a field the code never sets stays [None]. *)
Record RenderPassDepthStencilDescriptor := {
  dsa_texture : option handle;
  dsa_level : option Z;
  dsa_slice : option Z;
  dsa_loadAction : option MTLLoadAction;
  dsa_storeAction : option MTLStoreAction;
  dsa_clear : option Z
}.

Definition fresh_depth_stencil_descriptor : RenderPassDepthStencilDescriptor :=
  {| dsa_texture := None; dsa_level := None; dsa_slice := None;
     dsa_loadAction := None; dsa_storeAction := None; dsa_clear := None |}.

Record RenderPassDescriptor := {
  colorAttachments : gmap nat RenderPassColorAttachmentDescriptor;
  depthAttachment : RenderPassDepthStencilDescriptor;
  stencilAttachment : RenderPassDepthStencilDescriptor;
  renderTargetArrayLength : option Z;
  renderTargetWidth : Z;
  renderTargetHeight : Z;
  defaultRasterSampleCount : Z
}.

(** Calls made on the Metal command buffer and its encoders, in the order
    the code makes them. *)
Inductive MTLCall :=
| renderCommandEncoder (d : RenderPassDescriptor)
| computeCommandEncoder
| blitCommandEncoder
| endEncoding (encoder : handle)
| setVertexBuffer (buf : handle) (off : Z) (index : Z)
| setFragmentBuffer (buf : handle) (off : Z) (index : Z)
| setVertexBuffers (bufs : list handle) (offs : list Z) (location len : Z)
| setFragmentBuffers (bufs : list handle) (offs : list Z) (location len : Z)
| drawIndexedPrimitives (primitive_type : Z) (index_count : Z)
    (index_type : MTLIndexType) (index_buffer : handle)
    (index_buffer_offset : Z) (instance_count : Z) (base_vertex : Z)
    (base_instance : Z)
| copyFromBuffer (src : handle) (src_offset : Z) (dst : handle)
    (dst_offset : Z) (copy_size : Z)
| copyFromTexture (src dst : handle)
| memoryBarrier (resources : list handle).

(** *** The recording context *)

Record CommandBuffer := {
  m_command_queue_index : Z;
  m_buffer : option handle;
  m_objs : list handle;
  m_render : option handle;
  m_compute : option handle;
  m_blit : option handle;
  m_index_buffer_view : IndexBufferView;
  m_primitive_type : Z;
  encoded : list MTLCall
}.

Definition set_m_buffer (v : option handle) (cb : CommandBuffer) :=
  {| m_command_queue_index := m_command_queue_index cb; m_buffer := v;
     m_objs := m_objs cb; m_render := m_render cb;
     m_compute := m_compute cb; m_blit := m_blit cb;
     m_index_buffer_view := m_index_buffer_view cb;
     m_primitive_type := m_primitive_type cb; encoded := encoded cb |}.

Definition set_m_objs (v : list handle) (cb : CommandBuffer) :=
  {| m_command_queue_index := m_command_queue_index cb;
     m_buffer := m_buffer cb;
     m_objs := v; m_render := m_render cb;
     m_compute := m_compute cb; m_blit := m_blit cb;
     m_index_buffer_view := m_index_buffer_view cb;
     m_primitive_type := m_primitive_type cb; encoded := encoded cb |}.

Definition set_m_render (v : option handle) (cb : CommandBuffer) :=
  {| m_command_queue_index := m_command_queue_index cb;
     m_buffer := m_buffer cb;
     m_objs := m_objs cb; m_render := v;
     m_compute := m_compute cb; m_blit := m_blit cb;
     m_index_buffer_view := m_index_buffer_view cb;
     m_primitive_type := m_primitive_type cb; encoded := encoded cb |}.

Definition set_m_compute (v : option handle) (cb : CommandBuffer) :=
  {| m_command_queue_index := m_command_queue_index cb;
     m_buffer := m_buffer cb;
     m_objs := m_objs cb; m_render := m_render cb;
     m_compute := v; m_blit := m_blit cb;
     m_index_buffer_view := m_index_buffer_view cb;
     m_primitive_type := m_primitive_type cb; encoded := encoded cb |}.

Definition set_m_blit (v : option handle) (cb : CommandBuffer) :=
  {| m_command_queue_index := m_command_queue_index cb;
     m_buffer := m_buffer cb;
     m_objs := m_objs cb; m_render := m_render cb;
     m_compute := m_compute cb; m_blit := v;
     m_index_buffer_view := m_index_buffer_view cb;
     m_primitive_type := m_primitive_type cb; encoded := encoded cb |}.

Definition set_m_index_buffer_view (v : IndexBufferView) (cb : CommandBuffer) :=
  {| m_command_queue_index := m_command_queue_index cb;
     m_buffer := m_buffer cb;
     m_objs := m_objs cb; m_render := m_render cb;
     m_compute := m_compute cb; m_blit := m_blit cb;
     m_index_buffer_view := v;
     m_primitive_type := m_primitive_type cb; encoded := encoded cb |}.

(** A call on the Metal command buffer or on one of its encoders. *)
Definition emit (c : MTLCall) (cb : CommandBuffer) :=
  {| m_command_queue_index := m_command_queue_index cb;
     m_buffer := m_buffer cb;
     m_objs := m_objs cb; m_render := m_render cb;
     m_compute := m_compute cb; m_blit := m_blit cb;
     m_index_buffer_view := m_index_buffer_view cb;
     m_primitive_type := m_primitive_type cb;
     encoded := encoded cb ++ [c] |}.

(** The spec's view of the three encoder pointers: the state of the
    recording state machine. *)
Inductive PassState := Idle | RenderPass | ComputePass | CopyPass.

Definition recording_state (cb : CommandBuffer) : option PassState :=
  match m_render cb, m_compute cb, m_blit cb with
  | None, None, None => Some Idle
  | Some _, None, None => Some RenderPass
  | None, Some _, None => Some ComputePass
  | None, None, Some _ => Some CopyPass
  | _, _, _ => None
  end.

(** The condition of the three pass-opening checks:
    [!m_render && !m_compute && !m_blit]. *)
Definition no_pass_open (cb : CommandBuffer) : bool :=
  is_null (m_render cb) && is_null (m_compute cb) && is_null (m_blit cb).


(** Modelled from the spec: the three context checks are declared in the
    header of the class, outside the files embedded here.  Draw calls are
    "legal only in RenderPass", dispatches in the compute pass, copies
    "legal only in CopyPass", and an "unmatched pass-type for a
    draw/dispatch call" is asserted.  The wording of the messages is the
    model's. *)
Definition assert_graphcis_context {A} (cb : CommandBuffer)
    (body : outcome A) : outcome A :=
  lucheck_msg (non_null (m_render cb))
    "This call is legal only in a render pass."
    body.

Definition assert_compute_context {A} (cb : CommandBuffer)
    (body : outcome A) : outcome A :=
  lucheck_msg (non_null (m_compute cb))
    "This call is legal only in a compute pass."
    body.

Definition assert_copy_context {A} (cb : CommandBuffer)
    (body : outcome A) : outcome A :=
  lucheck_msg (non_null (m_blit cb))
    "This call is legal only in a copy pass."
    body.

(** The textures of the color attachments [begin_render_pass] binds: those
    of the slots from 0 up to, and without, the first slot that has no
    texture. *)
Fixpoint leading_textures (slots : list ColorAttachment)
    : list Resource.Texture :=
  match slots with
  | [] => []
  | src :: rest =>
      match texture src with
      | Some tex => tex :: leading_textures rest
      | None => []
      end
  end.

Definition color_slots (desc : RenderPassDesc) (i n : nat)
    : list ColorAttachment :=
  map (color_attachment_at desc) (seq i n).

(** The attachments a render pass binds, in the order the code visits
    them: the color attachments, then the depth stencil attachment. *)
Definition bound_attachments (desc : RenderPassDesc) : list Resource.Texture :=
  leading_textures (color_slots desc 0 8)
  ++ option_list (ds_texture (depth_stencil_attachment desc)).

Definition texture_extent (tex : Resource.Texture) : Z * Z :=
  (Resource.width tex, Resource.height tex).

Definition render_target_extent (d : RenderPassDescriptor) : Z * Z :=
  (renderTargetWidth d, renderTargetHeight d).

Section Backend.

(** What Metal answers: a fresh command buffer of a queue, and the encoders
    of a command buffer.  Each answer may be null. *)
Variable new_commandBuffer : Z -> option handle.
Variable new_renderCommandEncoder :
  handle -> RenderPassDescriptor -> option handle.
Variable new_computeCommandEncoder : handle -> option handle.
Variable new_blitCommandEncoder : handle -> option handle.

(** Helpers declared in headers outside the files embedded here. *)
Variable encode_load_action : LoadOp -> MTLLoadAction.
Variable encode_store_action : StoreOp -> bool -> MTLStoreAction.
Variable encode_index_type : Resource.Format -> MTLIndexType.

Definition init (cb : CommandBuffer) (command_queue_index : Z)
    : CommandBuffer * RV :=
  let cb :=
    {| m_command_queue_index := command_queue_index;
       m_buffer := new_commandBuffer command_queue_index;
       m_objs := m_objs cb; m_render := m_render cb;
       m_compute := m_compute cb; m_blit := m_blit cb;
       m_index_buffer_view := m_index_buffer_view cb;
       m_primitive_type := m_primitive_type cb; encoded := encoded cb |} in
  if is_null (m_buffer cb) then (cb, failed bad_platform_call)
  else (cb, ok tt).

Definition reset (cb : CommandBuffer) : CommandBuffer * RV :=
  let cb := set_m_objs [] cb in
  let cb := set_m_buffer (new_commandBuffer (m_command_queue_index cb)) cb in
  if is_null (m_buffer cb) then (cb, failed bad_platform_call)
  else (cb, ok tt).

Definition attach_device_object (cb : CommandBuffer) (obj : handle)
    : CommandBuffer :=
  set_m_objs (m_objs cb ++ [obj]) cb.

(** *** Render pass *)

Definition color_attachment_descriptor (src : ColorAttachment)
    (resolve_src : ResolveAttachment) (tex : Resource.Texture)
    : RenderPassColorAttachmentDescriptor :=
  {| ca_texture := Resource.m_texture tex;
     ca_level := mip_slice src;
     ca_slice := array_slice src;
     ca_loadAction := encode_load_action (load_op src);
     ca_storeAction :=
       match resolve_texture resolve_src with
       | Some _ => encode_store_action (store_op src) true
       | None => encode_store_action (store_op src) false
       end;
     ca_resolve :=
       match resolve_texture resolve_src with
       | Some resolve =>
           Some (Resource.m_texture resolve, resolve_mip_slice resolve_src,
                 resolve_array_slice resolve_src)
       | None => None
       end;
     ca_clearColor := clear_value src |}.

(** The loop [for(u32 i = 0; i < 8; ++i)] of [begin_render_pass], from
    index [i] on with [remaining] rounds to go.  The state is the color
    attachment array of the descriptor and the locals [width] and
    [height]. *)
Fixpoint color_attachments_loop (desc : RenderPassDesc) (remaining i : nat)
    (st : gmap nat RenderPassColorAttachmentDescriptor * Z * Z)
    : gmap nat RenderPassColorAttachmentDescriptor * Z * Z :=
  match remaining with
  | O => st
  | S remaining =>
      let src := color_attachment_at desc i in
      let resolve_src := resolve_attachment_at desc i in
      match texture src with
      | None => st
      | Some tex =>
          let '(attachments, _, _) := st in
          color_attachments_loop desc remaining (S i)
            (<[i := color_attachment_descriptor src resolve_src tex]>
               attachments,
             Resource.width tex, Resource.height tex)
      end
  end.

Definition depth_attachment_descriptor (src : DepthStencilAttachment)
    (tex : Resource.Texture) : RenderPassDepthStencilDescriptor :=
  {| dsa_texture := Some (Resource.m_texture tex);
     dsa_level := Some (ds_mip_slice src);
     dsa_slice := Some (ds_array_slice src);
     dsa_loadAction := Some (encode_load_action (depth_load_op src));
     dsa_storeAction := Some (encode_store_action (depth_store_op src) false);
     dsa_clear := Some (depth_clear_value src) |}.

Definition stencil_attachment_descriptor (src : DepthStencilAttachment)
    (tex : Resource.Texture) : RenderPassDepthStencilDescriptor :=
  {| dsa_texture := Some (Resource.m_texture tex);
     dsa_level := Some (ds_mip_slice src);
     dsa_slice := Some (ds_array_slice src);
     dsa_loadAction := Some (encode_load_action (stencil_load_op src));
     dsa_storeAction :=
       Some (encode_store_action (stencil_store_op src) false);
     dsa_clear := Some (stencil_clear_value src) |}.

(** The descriptor [d] that [begin_render_pass] fills in and hands to
    Metal. *)
Definition render_pass_descriptor (desc : RenderPassDesc)
    : RenderPassDescriptor :=
  let '(attachments, width, height) :=
    color_attachments_loop desc 8 0 (∅, 0, 0) in
  let src := depth_stencil_attachment desc in
  let '(depth, stencil, width, height) :=
    match ds_texture src with
    | Some tex =>
        (depth_attachment_descriptor src tex,
         stencil_attachment_descriptor src tex,
         Resource.width tex, Resource.height tex)
    | None =>
        (fresh_depth_stencil_descriptor, fresh_depth_stencil_descriptor,
         width, height)
    end in
  {| colorAttachments := attachments;
     depthAttachment := depth;
     stencilAttachment := stencil;
     renderTargetArrayLength :=
       if 1 <? array_size desc then Some (array_size desc) else None;
     renderTargetWidth := width;
     renderTargetHeight := height;
     defaultRasterSampleCount := sample_count desc |}.

(** A message sent to a null Metal object answers null. *)
Definition begin_render_pass (cb : CommandBuffer) (desc : RenderPassDesc)
    : outcome CommandBuffer :=
  lucheck_msg (no_pass_open cb)
    "begin_render_pass can only be called when no other pass is open."
    (let d := render_pass_descriptor desc in
     let cb := emit (renderCommandEncoder d) cb in
     Returns (set_m_render
                (m_buffer cb ≫= λ b, new_renderCommandEncoder b d) cb)).

Definition set_index_buffer (cb : CommandBuffer) (view : IndexBufferView)
    : outcome CommandBuffer :=
  assert_graphcis_context cb (Returns (set_m_index_buffer_view view cb)).

Definition set_graphics_descriptor_set (cb : CommandBuffer) (index : Z)
    (descriptor_set : DescriptorSet.DescriptorSet) : outcome CommandBuffer :=
  lucheck_msg (index <? 16)
    "Invalid descriptor set index range. Descriptor set index range must be in [0, 16) on Metal."
    (assert_graphcis_context cb
       (let buf := DescriptorSet.m_buffer descriptor_set in
        let cb := emit (setVertexBuffer buf 0 index) cb in
        Returns (emit (setFragmentBuffer buf 0 index) cb))).

(** [start_index] is a [u32], the size of the span a [usize]: the sum is
    one of 64-bit unsigned integers. *)
Definition set_graphics_descriptor_sets (cb : CommandBuffer) (start_index : Z)
    (descriptor_sets : list DescriptorSet.DescriptorSet)
    : outcome CommandBuffer :=
  let n := Z.of_nat (length descriptor_sets) in
  lucheck_msg (wrap64 (start_index + n) <? 16)
    "Invalid descriptor set index range. Descriptor set index range must be in [0, 16) on Metal."
    (assert_graphcis_context cb
       (let buffers := map DescriptorSet.m_buffer descriptor_sets in
        let offsets := map (λ _, 0) descriptor_sets in
        let cb := emit (setVertexBuffers buffers offsets start_index n) cb in
        Returns (emit (setFragmentBuffers buffers offsets start_index n) cb))).

(** The stride chosen by [type == MTL::IndexTypeUInt16 ? 2 : 4]. *)
Definition index_stride (type : MTLIndexType) : Z :=
  if decide (type = IndexTypeUInt16) then 2 else 4.

(** [start_index_location] is a [u32] parameter multiplied in place; the
    product is widened to [NS::UInteger] only when it is passed on. *)
Definition draw_indexed (cb : CommandBuffer)
    (index_count start_index_location base_vertex_location : Z)
    : outcome CommandBuffer :=
  assert_graphcis_context cb
    match buffer (m_index_buffer_view cb) with
    | None => Undefined
    | Some buf =>
        let type := encode_index_type (format (m_index_buffer_view cb)) in
        let start_index_location :=
          wrap32 (start_index_location * index_stride type) in
        Returns (emit (drawIndexedPrimitives (m_primitive_type cb) index_count
                         type (Resource.m_buffer buf) start_index_location 1
                         base_vertex_location 0) cb)
    end.

Definition draw_indexed_instanced (cb : CommandBuffer)
    (index_count_per_instance instance_count start_index_location
     base_vertex_location start_instance_location : Z)
    : outcome CommandBuffer :=
  assert_graphcis_context cb
    match buffer (m_index_buffer_view cb) with
    | None => Undefined
    | Some buf =>
        let type := encode_index_type (format (m_index_buffer_view cb)) in
        let start_index_location :=
          wrap32 (start_index_location * index_stride type) in
        Returns (emit (drawIndexedPrimitives (m_primitive_type cb)
                         index_count_per_instance type (Resource.m_buffer buf)
                         start_index_location instance_count
                         base_vertex_location start_instance_location) cb)
    end.

Definition end_render_pass (cb : CommandBuffer) : outcome CommandBuffer :=
  assert_graphcis_context cb
    match m_render cb with
    | None => Undefined
    | Some encoder => Returns (set_m_render None (emit (endEncoding encoder) cb))
    end.

(** *** Compute pass *)

Definition begin_compute_pass (cb : CommandBuffer) : outcome CommandBuffer :=
  lucheck_msg (no_pass_open cb)
    "begin_compute_pass can only be called when no other pass is open."
    (let cb := emit computeCommandEncoder cb in
     Returns (set_m_compute (m_buffer cb ≫= new_computeCommandEncoder) cb)).

Definition end_compute_pass (cb : CommandBuffer) : outcome CommandBuffer :=
  assert_compute_context cb
    match m_compute cb with
    | None => Undefined
    | Some encoder =>
        Returns (set_m_compute None (emit (endEncoding encoder) cb))
    end.

(** *** Copy pass *)

Definition begin_copy_pass (cb : CommandBuffer) : outcome CommandBuffer :=
  lucheck_msg (no_pass_open cb)
    "begin_copy_pass can only be called when no other pass is open."
    (let cb := emit blitCommandEncoder cb in
     Returns (set_m_blit (m_buffer cb ≫= new_blitCommandEncoder) cb)).

Definition copy_resource (cb : CommandBuffer) (dst src : Resource.IResource)
    : outcome CommandBuffer :=
  assert_copy_context cb
    match Resource.cast_object_Buffer dst, Resource.cast_object_Buffer src with
    | Some d, Some s =>
        Returns (emit (copyFromBuffer (Resource.m_buffer s) 0
                         (Resource.m_buffer d) 0
                         (Z.min (Resource.size d) (Resource.size s))) cb)
    | _, _ =>
        match Resource.cast_object_Texture dst,
              Resource.cast_object_Texture src with
        | Some d, Some s =>
            Returns (emit (copyFromTexture (Resource.m_texture s)
                             (Resource.m_texture d)) cb)
        | _, _ => Returns cb
        end
    end.

Definition end_copy_pass (cb : CommandBuffer) : outcome CommandBuffer :=
  assert_copy_context cb
    match m_blit cb with
    | None => Undefined
    | Some encoder => Returns (set_m_blit None (emit (endEncoding encoder) cb))
    end.

(** *** Barriers *)

(** The body of [resource_barrier] is a comment: the call touches neither
    the command buffer nor the resources the barriers name. *)
Definition resource_barrier (cb : CommandBuffer)
    (buffer_barriers : list BufferBarrier)
    (texture_barriers : list TextureBarrier) : CommandBuffer :=
  cb.

(** The three pass-opening calls. *)
Inductive BeginPass :=
| BeginRender (desc : RenderPassDesc)
| BeginCompute
| BeginCopy.

Definition begin_pass (call : BeginPass) (cb : CommandBuffer)
    : outcome CommandBuffer :=
  match call with
  | BeginRender desc => begin_render_pass cb desc
  | BeginCompute => begin_compute_pass cb
  | BeginCopy => begin_copy_pass cb
  end.

Definition pass_of (call : BeginPass) : PassState :=
  match call with
  | BeginRender _ => RenderPass
  | BeginCompute => ComputePass
  | BeginCopy => CopyPass
  end.

(** *** Statements about the calls *)

(** The encoder Metal hands back to a pass-opening call. *)
Definition encoder_answer (call : BeginPass) (cb : CommandBuffer)
    : option handle :=
  match call with
  | BeginRender desc =>
      m_buffer cb ≫= λ b,
        new_renderCommandEncoder b
          (render_pass_descriptor desc)
  | BeginCompute => m_buffer cb ≫= new_computeCommandEncoder
  | BeginCopy => m_buffer cb ≫= new_blitCommandEncoder
  end.

(** What the spec says of a pass-opening call: with a pass open it stops in
    the pass-open check; with no pass open it returns and the pass it names
    is the one open pass. *)
Definition begin_opens_pass (call : BeginPass) (cb : CommandBuffer) : Prop :=
  match recording_state cb with
  | Some Idle =>
      exists cb',
        begin_pass call cb = Returns cb'
        /\ recording_state cb' = Some (pass_of call)
  | _ => exists msg, begin_pass call cb = AssertFail msg
  end.

(** What the spec says of [reset]: it returns with nothing attached and no
    pass open. *)
Definition reset_forces_idle (cb : CommandBuffer) : Prop :=
  forall cb',
    reset cb = (cb', ok tt) ->
    m_objs cb' = [] /\ recording_state cb' = Some Idle.

(** The byte offset both indexed draws hand to Metal. *)
Definition index_buffer_offset (cb : CommandBuffer) (start_index_location : Z)
    : Z :=
  wrap32 (start_index_location
          * index_stride (encode_index_type (format (m_index_buffer_view cb)))).

Definition named_resources (buffer_barriers : list BufferBarrier)
    (texture_barriers : list TextureBarrier) : list handle :=
  map (λ b, Resource.m_buffer (barrier_buffer b)) buffer_barriers
  ++ map (λ b, Resource.m_texture (barrier_texture b)) texture_barriers.

(** What the spec says of [resource_barrier] in a compute pass: a
    [memoryBarrier] over the resources named is encoded. *)
Definition barrier_in_compute_pass (cb : CommandBuffer)
    (buffer_barriers : list BufferBarrier)
    (texture_barriers : list TextureBarrier) : Prop :=
  forall encoder,
    m_compute cb = Some encoder ->
    encoded (resource_barrier cb buffer_barriers texture_barriers)
    = encoded cb
      ++ [memoryBarrier (named_resources buffer_barriers texture_barriers)].

(** What the spec says of the render target size: it is the size of the
    first attachment the pass binds. *)
Definition extent_of_first_attachment (desc : RenderPassDesc) : Prop :=
  forall tex,
    head (bound_attachments desc) = Some tex ->
    render_target_extent (render_pass_descriptor desc) = texture_extent tex.

End Backend.

(** *** Sample objects *)

Definition sample_buffer (h : handle) (bytes : Z) : Resource.Buffer :=
  {| Resource.m_buffer := h; Resource.size := bytes;
     Resource.gpuAddress := 4096 * h |}.

Definition sample_texture (h : handle) (wd ht : Z) : Resource.Texture :=
  {| Resource.m_texture := h; Resource.width := wd; Resource.height := ht;
     Resource.gpuResourceID := h |}.

(** A command buffer as [init] leaves it, nothing recorded. *)
Definition idle_command_buffer : CommandBuffer :=
  {| m_command_queue_index := 0; m_buffer := Some 1; m_objs := [];
     m_render := None; m_compute := None; m_blit := None;
     m_index_buffer_view := null_index_buffer_view;
     m_primitive_type := 3; encoded := [] |}.

Definition in_render_pass : CommandBuffer :=
  set_m_render (Some 2) idle_command_buffer.

Definition in_compute_pass : CommandBuffer :=
  set_m_compute (Some 3) idle_command_buffer.

Definition in_copy_pass : CommandBuffer :=
  set_m_blit (Some 4) idle_command_buffer.

Definition sample_descriptor_set (h : handle) : DescriptorSet.DescriptorSet :=
  {| DescriptorSet.m_layout :=
       {| DescriptorSet.layout_bindings := [];
          DescriptorSet.m_argument_offsets := [];
          DescriptorSet.m_num_arguments := 0;
          DescriptorSet.m_flags := 0 |};
     DescriptorSet.m_buffer := h;
     DescriptorSet.data := ∅;
     DescriptorSet.m_bindings := [];
     DescriptorSet.m_samplers := ∅ |}.

(** A Metal that answers every request. *)
Definition sample_commandBuffer (queue : Z) : option handle := Some 10.
Definition sample_renderCommandEncoder (b : handle) (d : RenderPassDescriptor)
    : option handle := Some 11.
Definition sample_computeCommandEncoder (b : handle) : option handle :=
  Some 12.
Definition sample_blitCommandEncoder (b : handle) : option handle :=
  Some 13.

(** A Metal that hands out no command buffer, and one that hands out no
    compute encoder. *)
Definition failing_commandBuffer (queue : Z) : option handle := None.
Definition failing_computeCommandEncoder (b : handle) : option handle := None.

Definition sample_load_action (op : LoadOp) : MTLLoadAction :=
  match op with
  | LoadOp_dont_care => LoadActionDontCare
  | LoadOp_load => LoadActionLoad
  | LoadOp_clear => LoadActionClear
  end.

Definition sample_store_action (op : StoreOp) (resolve : bool)
    : MTLStoreAction :=
  match op, resolve with
  | StoreOp_dont_care, false => StoreActionDontCare
  | StoreOp_dont_care, true => StoreActionMultisampleResolve
  | StoreOp_store, false => StoreActionStore
  | StoreOp_store, true => StoreActionStoreAndMultisampleResolve
  end.

Definition color_attachment_of (tex : Resource.Texture) : ColorAttachment :=
  {| texture := Some tex; load_op := LoadOp_clear; store_op := StoreOp_store;
     clear_value := {| x := 0; y := 0; z := 0; w := 0 |};
     mip_slice := 0; array_slice := 0 |}.

Definition depth_stencil_attachment_of (tex : Resource.Texture)
    : DepthStencilAttachment :=
  {| ds_texture := Some tex;
     depth_load_op := LoadOp_clear; depth_store_op := StoreOp_store;
     depth_clear_value := 0;
     stencil_load_op := LoadOp_dont_care;
     stencil_store_op := StoreOp_dont_care;
     stencil_clear_value := 0; ds_mip_slice := 0; ds_array_slice := 0 |}.

Definition render_pass_desc_of (colors : list ColorAttachment)
    (depth : DepthStencilAttachment) : RenderPassDesc :=
  {| color_attachments := colors; resolve_attachments := [];
     depth_stencil_attachment := depth; occlusion_query_heap := None;
     array_size := 1; sample_count := 1 |}.

(** Modelled from the spec: [encode_index_type] is declared in a header
    outside the files embedded here; the "index stride (2 or 4 bytes)" is
    "determined by the index format", [r16_uint] being the 16-bit one. *)
Definition sample_encode_index_type (f : Resource.Format) : MTLIndexType :=
  match f with
  | Resource.r16_uint => IndexTypeUInt16
  | _ => IndexTypeUInt32
  end.

Definition sample_index_buffer : Resource.Buffer :=
  sample_buffer 8 (2 ^ 33).

Definition index_view (f : Resource.Format) : IndexBufferView :=
  {| buffer := Some sample_index_buffer; offset := 0;
     view_size := Resource.size sample_index_buffer; format := f |}.

(** A render pass after [set_index_buffer]. *)
Definition with_index_buffer (f : Resource.Format) : CommandBuffer :=
  set_m_index_buffer_view (index_view f) in_render_pass.

Definition sample_buffer_barrier : BufferBarrier :=
  {| barrier_buffer := sample_buffer 5 100; buffer_before := 0;
     buffer_after := 1; buffer_flags := 0 |}.

Definition two_color_desc : RenderPassDesc :=
  render_pass_desc_of
    [color_attachment_of (sample_texture 20 64 64);
     color_attachment_of (sample_texture 21 32 32)]
    null_depth_stencil_attachment.

End CommandBuffer.


(** ** D3D12 resource heap ([D3D12/ResourceHeap.cpp]) *)
Module ResourceHeap.
Import Runtime.

(** Constants of [d3d12.h]. *)
Definition D3D12_HEAP_FLAG_DENY_BUFFERS : Z := 0x4.
Definition D3D12_HEAP_FLAG_DENY_RT_DS_TEXTURES : Z := 0x40.
Definition D3D12_HEAP_FLAG_DENY_NON_RT_DS_TEXTURES : Z := 0x80.
Definition D3D12_DEFAULT_MSAA_RESOURCE_PLACEMENT_ALIGNMENT : Z := 4194304.

(** [FAILED(hr)]: an [HRESULT] below zero. *)
Definition FAILED (hr : Z) : bool := hr <? 0.

Record D3D12_HEAP_PROPERTIES := {
  Type_ : Z;
  CPUPageProperty : Z;
  MemoryPoolPreference : Z;
  CreationNodeMask : Z;
  VisibleNodeMask : Z
}.

Record D3D12_HEAP_DESC := {
  SizeInBytes : Z;
  Properties : D3D12_HEAP_PROPERTIES;
  Alignment : Z;
  Flags : Z
}.

(** A heap Direct3D has created; [GetDesc] answers the description it was
    created from. *)
Record ID3D12Heap := { GetDesc : D3D12_HEAP_DESC }.

(** [usages] is a mask of [ResourceHeapUsageFlag] bits. *)
Record ResourceHeapDesc := {
  type : Z;
  size : Z;
  usages : Z
}.

Record ResourceHeap := { m_heap : option ID3D12Heap }.

(** Modelled from the spec: [test_flags] is declared in a header outside
    the files embedded here.  [usages] is "the requested
    ResourceHeapUsageFlag set"; a flag is in the set when the mask has all
    of its bits. *)
Definition test_flags (flags options : Z) : bool :=
  Z.land flags options =? options.

(** [flags &= ~bit] *)
Definition clear_flag (flags bit : Z) : Z := Z.land flags (Z.lnot bit).

(** A heap flag is among the flags of a heap. *)
Definition has_flag (flags bit : Z) : bool := Z.land flags bit =? bit.

Section Declarations.

(** The enumerators of [ResourceHeapUsageFlag], declared in a header
    outside the files embedded here. *)
Variable buffer : Z.
Variable texture_rt_ds : Z.
Variable texture_non_rt_ds : Z.
Variable texture_msaa : Z.

Variable encode_heap_properties : Z -> D3D12_HEAP_PROPERTIES.
Variable encode_d3d12_error : Z -> ErrCode.

(** The device's [CreateHeap], by the [HRESULT] it returns. *)
Variable CreateHeap : D3D12_HEAP_DESC -> Z.

(** The description [d] that [init] fills in. *)
Definition heap_desc (desc : ResourceHeapDesc) : D3D12_HEAP_DESC :=
  let flags :=
    Z.lor (Z.lor D3D12_HEAP_FLAG_DENY_BUFFERS
             D3D12_HEAP_FLAG_DENY_RT_DS_TEXTURES)
      D3D12_HEAP_FLAG_DENY_NON_RT_DS_TEXTURES in
  let flags :=
    if test_flags (usages desc) buffer
    then clear_flag flags D3D12_HEAP_FLAG_DENY_BUFFERS else flags in
  let flags :=
    if test_flags (usages desc) texture_rt_ds
    then clear_flag flags D3D12_HEAP_FLAG_DENY_RT_DS_TEXTURES else flags in
  let flags :=
    if test_flags (usages desc) texture_non_rt_ds
    then clear_flag flags D3D12_HEAP_FLAG_DENY_NON_RT_DS_TEXTURES
    else flags in
  {| SizeInBytes := size desc;
     Properties := encode_heap_properties (type desc);
     Alignment :=
       if test_flags (usages desc) texture_msaa
       then D3D12_DEFAULT_MSAA_RESOURCE_PLACEMENT_ALIGNMENT else 0;
     Flags := flags |}.

Definition init (heap : ResourceHeap) (desc : ResourceHeapDesc)
    : ResourceHeap * RV :=
  let d := heap_desc desc in
  let hr := CreateHeap d in
  if FAILED hr then ({| m_heap := None |}, failed (encode_d3d12_error hr))
  else ({| m_heap := Some {| GetDesc := d |} |}, ok tt).

End Declarations.

(** A device that creates every heap, and the usage flags numbered in the
    order the code tests them. *)
Definition buffer_only : ResourceHeapDesc :=
  {| type := 0; size := 65536; usages := 1 |}.

Definition sample_heap_properties (heap_type : Z) : D3D12_HEAP_PROPERTIES :=
  {| Type_ := heap_type + 1; CPUPageProperty := 0; MemoryPoolPreference := 0;
     CreationNodeMask := 0; VisibleNodeMask := 0 |}.

Definition sample_init (heap : ResourceHeap) (desc : ResourceHeapDesc)
    : ResourceHeap * RV :=
  init 1 2 4 8 sample_heap_properties platform_error (λ _, 0) heap desc.

End ResourceHeap.

(** ** Metal command buffer: further recording calls and call sequences *)
Module CommandBufferCalls.
Import Runtime CommandBuffer.

(** A vertex buffer view, as [set_vertex_buffers] reads it. *)
Module VertexBufferView.
Record t := {
  buffer : Resource.Buffer;
  offset : Z;
  size : Z;
  element_size : Z
}.
End VertexBufferView.

Definition set_graphics_pipeline_layout (cb : CommandBuffer)
    : outcome CommandBuffer :=
  assert_graphcis_context cb (Returns cb).

Definition set_compute_pipeline_layout (cb : CommandBuffer)
    : outcome CommandBuffer :=
  assert_compute_context cb (Returns cb).

Definition copy_buffer (cb : CommandBuffer)
    (dst : Resource.Buffer) (dst_offset : Z)
    (src : Resource.Buffer) (src_offset : Z) (copy_bytes : Z)
    : outcome CommandBuffer :=
  assert_copy_context cb
    (Returns (emit (copyFromBuffer (Resource.m_buffer src) src_offset
                      (Resource.m_buffer dst) dst_offset copy_bytes) cb)).

(** The body of [write_timestamp] is empty. *)
Definition write_timestamp (cb : CommandBuffer) (heap : handle) (index : Z)
    : CommandBuffer :=
  cb.

(** The calls that record into a command buffer, as a caller strings them
    together. *)
Inductive Call :=
| AttachDeviceObject (obj : handle)
| Begin (call : BeginPass)
| SetGraphicsPipelineLayout
| SetVertexBuffers (start_slot : Z) (views : list VertexBufferView.t)
| SetIndexBuffer (view : IndexBufferView)
| SetGraphicsDescriptorSet (index : Z) (set : DescriptorSet.DescriptorSet)
| SetGraphicsDescriptorSets (start_index : Z)
    (sets : list DescriptorSet.DescriptorSet)
| DrawIndexed (index_count start_index_location base_vertex_location : Z)
| DrawIndexedInstanced
    (index_count_per_instance instance_count start_index_location
     base_vertex_location start_instance_location : Z)
| EndRenderPass
| SetComputePipelineLayout
| EndComputePass
| CopyResource (dst src : Resource.IResource)
| CopyBuffer (dst : Resource.Buffer) (dst_offset : Z)
    (src : Resource.Buffer) (src_offset : Z) (copy_bytes : Z)
| EndCopyPass
| ResourceBarrier (buffer_barriers : list BufferBarrier)
    (texture_barriers : list TextureBarrier)
| WriteTimestamp (heap : handle) (index : Z).

(** The state a call is written for; [None] for the calls that carry no
    check of the pass. *)
Definition scope (c : Call) : option PassState :=
  match c with
  | Begin _ => Some Idle
  | SetGraphicsPipelineLayout | SetVertexBuffers _ _ | SetIndexBuffer _
  | SetGraphicsDescriptorSet _ _ | SetGraphicsDescriptorSets _ _
  | DrawIndexed _ _ _ | DrawIndexedInstanced _ _ _ _ _ | EndRenderPass =>
      Some RenderPass
  | SetComputePipelineLayout | EndComputePass => Some ComputePass
  | CopyResource _ _ | CopyBuffer _ _ _ _ _ | EndCopyPass => Some CopyPass
  | AttachDeviceObject _ | ResourceBarrier _ _ | WriteTimestamp _ _ => None
  end.

Global Instance PassState_eq_dec : EqDecision PassState.
Proof. solve_decision. Defined.

Definition in_scope (c : Call) (s : PassState) : bool :=
  match scope c with
  | Some p => bool_decide (p = s)
  | None => true
  end.

(** The objects a sequence of calls attaches, in order. *)
Definition attached (calls : list Call) : list handle :=
  omap (λ c, match c with AttachDeviceObject obj => Some obj | _ => None end)
    calls.

(** The index buffer view in place after a sequence of calls, from the one
    in place before it: that of the last [set_index_buffer] among them. *)
Definition index_buffer_after (calls : list Call) (view : IndexBufferView)
    : IndexBufferView :=
  foldl (λ view c, match c with SetIndexBuffer v => v | _ => view end)
    view calls.

Section Backend.

Variable new_renderCommandEncoder :
  handle -> RenderPassDescriptor -> option handle.
Variable new_computeCommandEncoder : handle -> option handle.
Variable new_blitCommandEncoder : handle -> option handle.
Variable encode_load_action : LoadOp -> MTLLoadAction.
Variable encode_store_action : StoreOp -> bool -> MTLStoreAction.
Variable encode_index_type : Resource.Format -> MTLIndexType.

(** [VERTEX_BUFFER_SLOT_OFFSET + start_slot]; the constant is declared in
    a header outside the files embedded here. *)
Variable vertex_buffer_location : Z -> Z.

Definition set_vertex_buffers (cb : CommandBuffer) (start_slot : Z)
    (views : list VertexBufferView.t) : outcome CommandBuffer :=
  assert_graphcis_context cb
    (let buffers :=
       map (λ view, Resource.m_buffer (VertexBufferView.buffer view)) views in
     let offsets := map VertexBufferView.offset views in
     Returns (emit (setVertexBuffers buffers offsets
                      (vertex_buffer_location start_slot)
                      (Z.of_nat (length views))) cb)).

(** The call that closes the pass a pass-opening call opens. *)
Definition end_pass (call : BeginPass) (cb : CommandBuffer)
    : outcome CommandBuffer :=
  match call with
  | BeginRender _ => end_render_pass cb
  | BeginCompute => end_compute_pass cb
  | BeginCopy => end_copy_pass cb
  end.

Definition run (c : Call) (cb : CommandBuffer) : outcome CommandBuffer :=
  match c with
  | AttachDeviceObject obj => Returns (attach_device_object cb obj)
  | Begin call =>
      begin_pass new_renderCommandEncoder new_computeCommandEncoder
        new_blitCommandEncoder encode_load_action encode_store_action call cb
  | SetGraphicsPipelineLayout => set_graphics_pipeline_layout cb
  | SetVertexBuffers start_slot views => set_vertex_buffers cb start_slot views
  | SetIndexBuffer view => set_index_buffer cb view
  | SetGraphicsDescriptorSet index set =>
      set_graphics_descriptor_set cb index set
  | SetGraphicsDescriptorSets start_index sets =>
      set_graphics_descriptor_sets cb start_index sets
  | DrawIndexed n start base =>
      draw_indexed encode_index_type cb n start base
  | DrawIndexedInstanced n instances start base first =>
      draw_indexed_instanced encode_index_type cb n instances start base first
  | EndRenderPass => end_render_pass cb
  | SetComputePipelineLayout => set_compute_pipeline_layout cb
  | EndComputePass => end_compute_pass cb
  | CopyResource dst src => copy_resource cb dst src
  | CopyBuffer dst dst_offset src src_offset copy_bytes =>
      copy_buffer cb dst dst_offset src src_offset copy_bytes
  | EndCopyPass => end_copy_pass cb
  | ResourceBarrier buffer_barriers texture_barriers =>
      Returns (resource_barrier cb buffer_barriers texture_barriers)
  | WriteTimestamp heap index => Returns (write_timestamp cb heap index)
  end.

(** One call after the other; the first that does not return ends the
    sequence. *)
Fixpoint run_all (calls : list Call) (cb : CommandBuffer)
    : outcome CommandBuffer :=
  match calls with
  | [] => Returns cb
  | c :: rest =>
      match run c cb with
      | Returns cb => run_all rest cb
      | AssertFail msg => AssertFail msg
      | Undefined => Undefined
      end
  end.

(** The state a returning call leaves, from the state it found. *)
Definition next_state (c : Call) (s : PassState) (cb : CommandBuffer)
    : PassState :=
  match c with
  | Begin call =>
      if non_null (encoder_answer new_renderCommandEncoder
                     new_computeCommandEncoder new_blitCommandEncoder
                     encode_load_action encode_store_action call cb)
      then pass_of call else Idle
  | EndRenderPass | EndComputePass | EndCopyPass => Idle
  | _ => s
  end.

End Backend.

Definition sample_vertex_buffer_location (start_slot : Z) : Z :=
  wrap32 (16 + start_slot).

Definition sample_run : Call -> CommandBuffer -> outcome CommandBuffer :=
  run sample_renderCommandEncoder sample_computeCommandEncoder
    sample_blitCommandEncoder sample_load_action sample_store_action
    sample_encode_index_type sample_vertex_buffer_location.

Definition sample_run_all : list Call -> CommandBuffer -> outcome CommandBuffer :=
  run_all sample_renderCommandEncoder sample_computeCommandEncoder
    sample_blitCommandEncoder sample_load_action sample_store_action
    sample_encode_index_type sample_vertex_buffer_location.

(** A copy pass as a caller records it. *)
Definition sample_copy_calls : list Call :=
  [ Begin BeginCopy;
    CopyBuffer (sample_buffer 5 100) 0 (sample_buffer 6 64) 16 32;
    AttachDeviceObject 5;
    CopyResource (Resource.buffer_object (sample_buffer 5 100))
      (Resource.buffer_object (sample_buffer 6 64));
    AttachDeviceObject 6;
    EndCopyPass ].

Definition after_sample_copy : CommandBuffer :=
  match sample_run_all sample_copy_calls idle_command_buffer with
  | Returns cb => cb
  | _ => idle_command_buffer
  end.

End CommandBufferCalls.

(** ** Metal descriptor set: creation, and what a set retains *)
Module DescriptorSetInit.
Import Runtime DescriptorSet.

Global Instance DescriptorType_eq_dec : EqDecision DescriptorType.
Proof. solve_decision. Defined.

(** Constants of the Metal headers. *)
Definition ResourceUsageRead : Z := 1.
Definition ResourceUsageWrite : Z := 2.
Definition RenderStageVertex : Z := 1.
Definition RenderStageFragment : Z := 2.

Record DescriptorSetDesc := {
  layout : DescriptorSetLayout;
  num_variable_descriptors : Z
}.

(** What a binding keeps besides the resources themselves: how many
    descriptors it has room for, and its usage and stage masks. *)
Definition capacity (b : DescriptorSetBinding) : nat * Z * Z :=
  (length (m_resources b), m_usages b, m_render_stages b).

(** The parts of a set that are fixed when it is created. *)
Definition shape (ds : DescriptorSet)
    : DescriptorSetLayout * handle * list (nat * Z * Z) :=
  (m_layout ds, m_buffer ds, map capacity (m_bindings ds)).

(** [m_bindings[binding_index].m_resources[index]], when both exist. *)
Definition resource_at (ds : DescriptorSet) (binding_index index : nat)
    : option (option handle) :=
  m_bindings ds !! binding_index ≫= λ b, m_resources b !! index.

(** The key [write.binding_slot + write.first_array_index + (u32)i] of a
    sampler in [m_samplers]. *)
Definition sampler_key (write : WriteDescriptorSet) (i : nat) : Z :=
  wrap32 (wrap32 (binding_slot write + first_array_index write)
          + wrap32 (Z.of_nat i)).

Section Backend.

(** Enumerators and helpers declared in headers outside the files embedded
    here: the layout flag [variable_descriptors], the shader visibility
    flags [vertex] and [pixel], and the resource options of upload
    memory. *)
Variable variable_descriptors : Z.
Variable vertex : Z.
Variable pixel : Z.
Variable upload_resource_options : Z.

(** The usage and stage masks of a binding that [m_bindings.assign] has
    just made. *)
Variable fresh_usages : Z.
Variable fresh_render_stages : Z.

(** The device's [newBuffer], by length and options; null when Metal
    creates no buffer. *)
Variable newBuffer : Z -> Z -> option handle.

(** The number of argument slots: [m_num_arguments], a [usize], and the
    variable descriptors on top when the layout has the flag. *)
Definition num_arguments (desc : DescriptorSetDesc) : Z :=
  if ResourceHeap.test_flags (m_flags (layout desc)) variable_descriptors
  then wrap64 (m_num_arguments (layout desc) + num_variable_descriptors desc)
  else m_num_arguments (layout desc).

(** [sizeof(u64) * num_arguments] *)
Definition argument_buffer_length (desc : DescriptorSetDesc) : Z :=
  wrap64 (8 * num_arguments desc).

(** One round of the loop of [init]: the binding made for a binding record
    of the layout. *)
Definition init_binding (src : DescriptorSetLayoutBinding)
    : DescriptorSetBinding :=
  match layout_type src with
  | sampler =>
      {| m_resources := []; m_usages := fresh_usages;
         m_render_stages := fresh_render_stages |}
  | type =>
      let usages :=
        match type with
        | uniform_buffer_view | read_buffer_view | read_texture_view =>
            ResourceUsageRead
        | read_write_buffer_view | read_write_texture_view =>
            Z.lor ResourceUsageRead ResourceUsageWrite
        | sampler => fresh_usages
        end in
      let stages := fresh_render_stages in
      let stages :=
        if ResourceHeap.test_flags (shader_visibility_flags src) vertex
        then Z.lor stages RenderStageVertex else stages in
      let stages :=
        if ResourceHeap.test_flags (shader_visibility_flags src) pixel
        then Z.lor stages RenderStageFragment else stages in
      {| m_resources := replicate (Z.to_nat (num_descs src)) None;
         m_usages := usages; m_render_stages := stages |}
  end.

(** [DescriptorSet::init] on a set just allocated: the set it leaves, or
    the error.  Nothing has been written to the argument buffer yet and no
    sampler is kept. *)
Definition init (desc : DescriptorSetDesc) : R DescriptorSet :=
  match newBuffer (argument_buffer_length desc) upload_resource_options with
  | None => failed bad_platform_call
  | Some buf =>
      ok {| m_layout := layout desc;
            m_buffer := buf;
            data := ∅;
            m_bindings := map init_binding (layout_bindings (layout desc));
            m_samplers := ∅ |}
  end.

End Backend.

Section Views.

Variable validate_texture_view_desc :
  Resource.Texture -> TextureViewDesc -> TextureViewDesc.
Variable require_view_object : Resource.Texture -> TextureViewDesc -> bool.
Variable get_texture_view : Resource.Texture -> TextureViewDesc -> R Z.

(** The id a texture view is written with: that of a view object when the
    view needs one, that of the texture itself otherwise. *)
Definition texture_view_id (v : TextureViewDesc) : R Z :=
  let view := validate_texture_view_desc (texture v) v in
  if require_view_object (texture v) view
  then get_texture_view (texture v) view
  else ok (Resource.gpuResourceID (texture v)).

End Views.

(** A device that creates the argument buffer, flags numbered from 1. *)
Definition sample_newBuffer (length options : Z) : option handle := Some 50.

Definition sample_init (desc : DescriptorSetDesc) : R DescriptorSet :=
  init 1 1 2 0 0 0 sample_newBuffer desc.

Definition sample_desc : DescriptorSetDesc :=
  {| layout := sample_layout; num_variable_descriptors := 0 |}.

(** The set the sample device creates for [sample_desc]. *)
Definition created_set : DescriptorSet :=
  match sample_init sample_desc with
  | ok ds => ds
  | failed _ => sample_set
  end.

(** [sample_layout] with room for five more descriptors at the end. *)
Definition variable_desc : DescriptorSetDesc :=
  {| layout :=
       {| layout_bindings := layout_bindings sample_layout;
          m_argument_offsets := m_argument_offsets sample_layout;
          m_num_arguments := m_num_arguments sample_layout;
          m_flags := 1 |};
     num_variable_descriptors := 5 |}.

(** A uniform buffer write and a read buffer write followed by a sampler
    write. *)
Definition sample_batch : list WriteDescriptorSet :=
  [uniform_write; typed_write; sampler_write].

(** Two sampler writes whose slot and array index add up to the same
    number: slot 2, index 1 and slot 3, index 0. *)
Definition sampler_write_2_1 : WriteDescriptorSet :=
  {| binding_slot := 2; first_array_index := 1; type := sampler;
     buffer_views := []; texture_views := []; samplers := [sample_sampler] |}.

Definition sampler_write_3_0 : WriteDescriptorSet :=
  {| binding_slot := 3; first_array_index := 0; type := sampler;
     buffer_views := []; texture_views := []; samplers := [sample_sampler] |}.

Definition sample_texture_resource : Resource.Texture :=
  {| Resource.m_texture := 60; Resource.width := 256; Resource.height := 256;
     Resource.gpuResourceID := 61 |}.

Definition sample_texture_view : TextureViewDesc :=
  {| texture := sample_texture_resource; view_type := 0;
     view_format := Resource.unknown; mip_slice := 0; mip_size := 1;
     array_slice := 0; array_size := 1 |}.

(** A layout with one texture binding of two descriptors, and its set. *)
Definition texture_layout : DescriptorSetLayout :=
  {| layout_bindings :=
       [ {| layout_type := read_texture_view; layout_binding_slot := 4;
            num_descs := 2; shader_visibility_flags := 2 |} ];
     m_argument_offsets := [0];
     m_num_arguments := 2;
     m_flags := 0 |}.

Definition texture_write : WriteDescriptorSet :=
  {| binding_slot := 4; first_array_index := 1; type := read_texture_view;
     buffer_views := []; texture_views := [sample_texture_view];
     samplers := [] |}.

Definition texture_set : DescriptorSet :=
  {| m_layout := texture_layout; m_buffer := 62; data := ∅;
     m_bindings :=
       [ {| m_resources := [None; None]; m_usages := 1;
            m_render_stages := 2 |} ];
     m_samplers := ∅ |}.

(** A layout with two sampler bindings, at slots 2 and 3, and its set. *)
Definition sampler_layout : DescriptorSetLayout :=
  {| layout_bindings :=
       [ {| layout_type := sampler; layout_binding_slot := 2;
            num_descs := 2; shader_visibility_flags := 2 |};
         {| layout_type := sampler; layout_binding_slot := 3;
            num_descs := 1; shader_visibility_flags := 2 |} ];
     m_argument_offsets := [0; 2];
     m_num_arguments := 3;
     m_flags := 0 |}.

Definition sampler_set : DescriptorSet :=
  {| m_layout := sampler_layout; m_buffer := 63; data := ∅;
     m_bindings :=
       [ {| m_resources := []; m_usages := 0; m_render_stages := 0 |};
         {| m_resources := []; m_usages := 0; m_render_stages := 0 |} ];
     m_samplers := ∅ |}.

End DescriptorSetInit.

(** * Facts *)

(** ** Runtime *)
Module RuntimeFacts.
Import Runtime.

Lemma lucheck_msg_true {A} msg (body : outcome A) :
  lucheck_msg true msg body = body.
Proof. reflexivity. Qed.

Lemma lucheck_msg_false {A} msg (body : outcome A) :
  lucheck_msg false msg body = AssertFail msg.
Proof. reflexivity. Qed.

Lemma wrap32_small z : 0 <= z < 2 ^ 32 -> wrap32 z = z.
Proof. intros H. unfold wrap32. apply Z.mod_small. exact H. Qed.

Lemma wrap64_small z : 0 <= z < 2 ^ 64 -> wrap64 z = z.
Proof. intros H. unfold wrap64. apply Z.mod_small. exact H. Qed.

End RuntimeFacts.

(** ** Metal descriptor set *)
Module DescriptorSetFacts.
Import Runtime RuntimeFacts DescriptorSet.

(** *** The scan for a binding record *)

Lemma find_binding_index_none (bindings : list DescriptorSetLayoutBinding)
    (slot : Z) (i : nat) :
  Forall (λ b, layout_binding_slot b ≠ slot) bindings ->
  find_binding_index bindings slot i = (i + length bindings)%nat.
Proof.
  intros Hall. revert i.
  induction Hall as [|b bs Hb _ IH]; intros i; simpl.
  - lia.
  - destruct (decide (slot = layout_binding_slot b)) as [Heq|_];
      [congruence|].
    rewrite IH. lia.
Qed.

(** The scan stops at the first record that has the slot. *)
Lemma find_binding_index_first (bindings : list DescriptorSetLayoutBinding)
    (slot : Z) (i : nat) :
  Exists (λ b, layout_binding_slot b = slot) bindings ->
  exists k b,
    find_binding_index bindings slot i = (i + k)%nat
    /\ bindings !! k = Some b
    /\ layout_binding_slot b = slot
    /\ Forall (λ b', layout_binding_slot b' ≠ slot) (take k bindings).
Proof.
  intros Hex. revert i.
  induction bindings as [|b bs IH]; intros i.
  - inversion Hex.
  - simpl. destruct (decide (slot = layout_binding_slot b)) as [Heq|Hne].
    + exists 0%nat, b. split_and!; [lia|reflexivity|congruence|constructor].
    + assert (Hex' : Exists (λ b, layout_binding_slot b = slot) bs).
      { inversion Hex; subst; [congruence|assumption]. }
      destruct (IH Hex' (S i)) as (k & b' & Hk & Hlook & Hslot & Hbefore).
      exists (S k), b'. split_and!; [lia|exact Hlook|exact Hslot|].
      simpl. constructor; [congruence|exact Hbefore].
Qed.

Lemma find_binding_index_resolved (bindings : list DescriptorSetLayoutBinding)
    (slot : Z) :
  Exists (λ b, layout_binding_slot b = slot) bindings ->
  find_binding_index bindings slot 0 ≠ length bindings.
Proof.
  intros Hex.
  destruct (find_binding_index_first bindings slot 0 Hex)
    as (k & b & -> & Hlook & _).
  apply lookup_lt_Some in Hlook. lia.
Qed.

(** *** Distinct argument slots *)

Lemma wrap64_window (a i j : Z) :
  wrap64 (a + i) = wrap64 (a + j) -> - 2 ^ 64 < i - j < 2 ^ 64 -> i = j.
Proof.
  unfold wrap64. intros Heq Hwin.
  pose proof (Z.div_mod (a + i) (2 ^ 64) ltac:(lia)) as Hi.
  pose proof (Z.div_mod (a + j) (2 ^ 64) ltac:(lia)) as Hj.
  rewrite Heq in Hi.
  assert (Hd : i - j = 2 ^ 64 * ((a + i) / 2 ^ 64 - (a + j) / 2 ^ 64)) by lia.
  nia.
Qed.

Section Properties.

Variable bits_per_pixel : Resource.Format -> Z.
Variable validate_texture_view_desc :
  Resource.Texture -> TextureViewDesc -> TextureViewDesc.
Variable require_view_object : Resource.Texture -> TextureViewDesc -> bool.
Variable encode_min_mag_filter : Z -> Z.
Variable encode_mip_filter : Z -> Z.
Variable encode_compare_function : Z -> Z.
Variable encode_address_mode : Z -> Z.
Variable CompareFunctionNever : Z.
Variable get_texture_view : Resource.Texture -> TextureViewDesc -> R Z.
Variable newSamplerState : MTLSamplerDescriptor -> option MTLSamplerState.

Local Abbreviation write_texture_views' :=
  (write_texture_views validate_texture_view_desc require_view_object
     get_texture_view).
Local Abbreviation sampler_descriptor' :=
  (sampler_descriptor encode_min_mag_filter encode_mip_filter
     encode_compare_function encode_address_mode CompareFunctionNever).
Local Abbreviation write_samplers' :=
  (write_samplers encode_min_mag_filter encode_mip_filter
     encode_compare_function encode_address_mode CompareFunctionNever
     newSamplerState).
Local Abbreviation write_descriptors' :=
  (write_descriptors bits_per_pixel validate_texture_view_desc
     require_view_object encode_min_mag_filter encode_mip_filter
     encode_compare_function encode_address_mode CompareFunctionNever
     get_texture_view newSamplerState).
Local Abbreviation update_descriptors' :=
  (update_descriptors bits_per_pixel validate_texture_view_desc
     require_view_object encode_min_mag_filter encode_mip_filter
     encode_compare_function encode_address_mode CompareFunctionNever
     get_texture_view newSamplerState).

(** *** The layout is never written *)

Lemma write_buffer_views_layout f bi ao write i views ds :
  m_layout (write_buffer_views f bi ao write i views ds) = m_layout ds.
Proof.
  revert i ds. induction views as [|v vs IH]; intros i ds; simpl.
  - reflexivity.
  - rewrite IH. reflexivity.
Qed.

Lemma write_texture_views_layout bi ao write i views ds :
  m_layout (write_texture_views' bi ao write i views ds).1 = m_layout ds.
Proof.
  revert i ds. induction views as [|v vs IH]; intros i ds; simpl.
  - reflexivity.
  - destruct (if require_view_object _ _ then _ else _); simpl.
    + rewrite IH. reflexivity.
    + reflexivity.
Qed.

Lemma write_samplers_layout ao write i views ds :
  m_layout (write_samplers' ao write i views ds).1 = m_layout ds.
Proof.
  revert i ds. induction views as [|v vs IH]; intros i ds; simpl.
  - reflexivity.
  - destruct (newSamplerState _); simpl.
    + rewrite IH. reflexivity.
    + reflexivity.
Qed.

Lemma write_descriptors_layout bi write ds :
  m_layout (write_descriptors' bi write ds).1 = m_layout ds.
Proof.
  unfold write_descriptors. destruct (type write); simpl;
    auto using write_buffer_views_layout, write_texture_views_layout,
      write_samplers_layout.
Qed.

Lemma update_descriptors_layout writes ds :
  m_layout (update_descriptors' ds writes).1 = m_layout ds.
Proof.
  revert ds. induction writes as [|w ws IH]; intros ds; simpl.
  - reflexivity.
  - destruct (decide _); [reflexivity|].
    pose proof (write_descriptors_layout
                  (find_binding_index (layout_bindings (m_layout ds))
                     (binding_slot w) 0) w ds) as Hl.
    destruct (write_descriptors' _ w ds) as [ds1 [[]|e]]; simpl in *.
    + rewrite IH. exact Hl.
    + exact Hl.
Qed.

(** *** Batches *)

Lemma update_descriptors_app ds pre post ds1 :
  update_descriptors' ds pre = (ds1, ok tt) ->
  update_descriptors' ds (pre ++ post) = update_descriptors' ds1 post.
Proof.
  revert ds. induction pre as [|w ws IH]; intros ds Hpre; simpl in *.
  - congruence.
  - destruct (decide _); [discriminate|].
    destruct (write_descriptors' _ w ds) as [ds' [[]|e]]; [|discriminate].
    apply IH. exact Hpre.
Qed.

(** *** What the buffer loop leaves in the argument buffer *)




(** Where no product and no sum overflows and the format has whole bytes,
    the address of a read or read-write view is the one counted in
    strides. *)
Lemma read_view_address_in_strides (view : BufferViewDesc) :
  0 <= Resource.gpuAddress (buffer view) ->
  0 <= first_element view ->
  0 <= element_size view ->
  0 <= bits_per_pixel (format view) ->
  (bits_per_pixel (format view) mod 8 = 0) ->
  Resource.gpuAddress (buffer view)
  + first_element view
    * Z.max (element_size view) (bits_per_pixel (format view)) < 2 ^ 64 ->
  wrap64 (Resource.gpuAddress (buffer view)
          + read_data_offset bits_per_pixel view)
  = Resource.gpuAddress (buffer view) + offset_in_strides bits_per_pixel view.
Proof.
  intros Hb Hf He Hp Hmod Hfit.
  unfold read_data_offset, offset_in_strides.
  destruct (decide (format view = Resource.unknown)) as [_|_].
  - rewrite (wrap64_small (element_size view * first_element view)) by nia.
    rewrite wrap64_small by nia. lia.
  - rewrite (wrap64_small (bits_per_pixel (format view) * first_element view))
      by nia.
    apply Z.mod_divide in Hmod as [q Hq]; [|lia].
    rewrite Hq.
    replace (q * 8 * first_element view) with (q * first_element view * 8)
      by lia.
    rewrite !Z.div_mul by lia.
    rewrite wrap64_small by nia. lia.
Qed.

(** *** Where an error of [update_descriptors] comes from *)

Lemma write_texture_views_error bi ao write i views ds ds' e :
  write_texture_views' bi ao write i views ds = (ds', failed e) ->
  backend_error get_texture_view newSamplerState e.
Proof.
  revert i ds. induction views as [|v vs IH]; intros i ds; simpl.
  - discriminate.
  - destruct (require_view_object _ _) eqn:Hreq.
    + destruct (get_texture_view _ _) as [id|e'] eqn:Hget.
      * apply IH.
      * intros [= _ ->]. left. eauto.
    + apply IH.
Qed.

Lemma write_samplers_error ao write i views ds ds' e :
  write_samplers' ao write i views ds = (ds', failed e) ->
  backend_error get_texture_view newSamplerState e.
Proof.
  revert i ds. induction views as [|v vs IH]; intros i ds; simpl.
  - discriminate.
  - destruct (newSamplerState _) as [s|] eqn:Hnew.
    + apply IH.
    + intros [= _ <-]. right. eauto.
Qed.

Lemma write_descriptors_error bi write ds ds' e :
  write_descriptors' bi write ds = (ds', failed e) -> backend_error get_texture_view newSamplerState e.
Proof.
  unfold write_descriptors. destruct (type write);
    try discriminate;
    eauto using write_texture_views_error, write_samplers_error.
Qed.

Lemma update_descriptors_unresolved ds write post :
  unresolved ds write ->
  update_descriptors' ds (write :: post) = (ds, failed bad_arguments).
Proof.
  intros Hun. simpl.
  rewrite (find_binding_index_none _ _ 0 Hun). simpl.
  destruct (decide _); [reflexivity|contradiction].
Qed.

Lemma update_descriptors_resolved_error writes :
  forall ds ds' e,
    Forall (resolved ds) writes ->
    update_descriptors' ds writes = (ds', failed e) ->
    backend_error get_texture_view newSamplerState e.
Proof.
  induction writes as [|w ws IH]; intros ds ds' e Hall; simpl.
  - discriminate.
  - apply Forall_cons in Hall as [Hw Hws].
    destruct (decide _) as [Heq|_].
    + exfalso. revert Heq. apply find_binding_index_resolved. exact Hw.
    + pose proof (write_descriptors_layout
                    (find_binding_index (layout_bindings (m_layout ds))
                       (binding_slot w) 0) w ds) as Hlay.
      destruct (write_descriptors' _ w ds) as [ds1 [[]|e1]] eqn:Hw1;
        simpl in Hlay.
      * apply IH. unfold resolved in *. rewrite Hlay. exact Hws.
      * intros [= _ <-]. eapply write_descriptors_error. exact Hw1.
Qed.

(** C7, as the code has it.  The writes of a batch are taken in order, each
    slot looked up by a scan of the layout's binding records.
    - When the writes before a write have gone through and no binding
      record has that write's slot, [update_descriptors] returns
      [bad_arguments] and leaves the set as those earlier writes left it:
      neither this write nor a later one is processed.
    - When every write's slot is that of some binding record, an error
      returned, if any, is one a failed [get_texture_view] or a failed
      [newSamplerState] produced, never one of slot resolution. *)
Theorem update_descriptors_slot_resolution (ds : DescriptorSet) :
  (forall pre write post ds1,
     update_descriptors' ds pre = (ds1, ok tt) ->
     unresolved ds write ->
     update_descriptors' ds (pre ++ write :: post)
     = (ds1, failed bad_arguments))
  /\ (forall writes ds' e,
        Forall (resolved ds) writes ->
        update_descriptors' ds writes = (ds', failed e) ->
        backend_error get_texture_view newSamplerState e).
Proof.
  split.
  - intros pre write post ds1 Hpre Hun.
    rewrite (update_descriptors_app _ _ _ _ Hpre).
    apply update_descriptors_unresolved.
    pose proof (update_descriptors_layout pre ds) as Hlay.
    rewrite Hpre in Hlay. simpl in Hlay.
    unfold unresolved. rewrite Hlay. exact Hun.
  - intros writes ds' e. apply update_descriptors_resolved_error.
Qed.

End Properties.

Example typed_view_address :
  data (sample_update sample_newSamplerState sample_set [typed_write]).1 !! 1
  = Some (1048576 + 10 * (32 / 8)).
Proof. reflexivity. Qed.


(** A uniform buffer write aimed at the sampler binding of [sample_set],
    which has no resource entries, is not in range. *)
Example write_to_sampler_binding_out_of_range :
  stores_in_range sample_set
    {| binding_slot := 2; first_array_index := 0;
       type := uniform_buffer_view; buffer_views := [uniform_view];
       texture_views := []; samplers := [] |}
  = false
  /\ stores_in_range sample_set typed_write = true.
Proof. split; reflexivity. Qed.


Lemma update_descriptors_slot_resolution_witness :
  sample_update sample_newSamplerState sample_set
    ([typed_write] ++ stray_write :: [uniform_write])
  = ((sample_update sample_newSamplerState sample_set [typed_write]).1,
     failed bad_arguments).
Proof.
  apply (proj1 (update_descriptors_slot_resolution sample_bits_per_pixel
                  sample_validate sample_require_view_object id id id id 0
                  sample_get_texture_view sample_newSamplerState sample_set)).
  - reflexivity.
  - unfold unresolved. simpl. repeat constructor; discriminate.
Defined.

(** C7, counterexample.  The device creates no sampler: a batch of a
    sampler write and, after it, a write to a slot the layout does not have
    returns [bad_platform_call]. *)
Lemma unresolved_slot_is_bad_arguments_fails :
  ~ unresolved_slot_is_bad_arguments sample_bits_per_pixel sample_validate
      sample_require_view_object id id id id 0 sample_get_texture_view
      failing_newSamplerState sample_set [sampler_write; stray_write].
Proof.
  intros Hclaim.
  assert (Hstray : Exists (unresolved sample_set) [sampler_write; stray_write]).
  { apply Exists_cons_tl, Exists_cons_hd.
    unfold unresolved. simpl. repeat constructor; discriminate. }
  specialize (Hclaim Hstray). vm_compute in Hclaim. discriminate.
Qed.

End DescriptorSetFacts.

(** ** Metal command buffer *)
Module CommandBufferFacts.
Import Runtime RuntimeFacts CommandBuffer.

(** *** Facts about the record updates *)

Lemma recording_state_idle (cb : CommandBuffer) :
  no_pass_open cb = true <-> recording_state cb = Some Idle.
Proof.
  unfold no_pass_open, recording_state, is_null.
  destruct (m_render cb), (m_compute cb), (m_blit cb); simpl;
    split; congruence.
Qed.

Lemma recording_state_not_idle (cb : CommandBuffer) :
  no_pass_open cb = false <-> recording_state cb <> Some Idle.
Proof.
  rewrite <- recording_state_idle.
  destruct (no_pass_open cb); split; congruence.
Qed.

Lemma recording_state_emit (c : MTLCall) (cb : CommandBuffer) :
  recording_state (emit c cb) = recording_state cb.
Proof. reflexivity. Qed.

Lemma recording_state_set_m_objs (objs : list handle) (cb : CommandBuffer) :
  recording_state (set_m_objs objs cb) = recording_state cb.
Proof. reflexivity. Qed.

Lemma recording_state_set_m_buffer (b : option handle) (cb : CommandBuffer) :
  recording_state (set_m_buffer b cb) = recording_state cb.
Proof. reflexivity. Qed.

Lemma recording_state_attach (cb : CommandBuffer) (objs : list handle) :
  recording_state (foldl attach_device_object cb objs) = recording_state cb.
Proof.
  revert cb. induction objs as [|obj objs IH]; intros cb; simpl.
  - reflexivity.
  - rewrite IH. apply recording_state_set_m_objs.
Qed.

Lemma m_objs_attach (cb : CommandBuffer) (objs : list handle) :
  m_objs (foldl attach_device_object cb objs) = m_objs cb ++ objs.
Proof.
  revert cb. induction objs as [|obj objs IH]; intros cb; simpl.
  - symmetry. apply app_nil_r.
  - rewrite IH. simpl. rewrite <- app_assoc. reflexivity.
Qed.

Section Properties.

Variable new_commandBuffer : Z -> option handle.
Variable new_renderCommandEncoder :
  handle -> RenderPassDescriptor -> option handle.
Variable new_computeCommandEncoder : handle -> option handle.
Variable new_blitCommandEncoder : handle -> option handle.
Variable encode_load_action : LoadOp -> MTLLoadAction.
Variable encode_store_action : StoreOp -> bool -> MTLStoreAction.

Local Abbreviation begin_pass' :=
  (begin_pass new_renderCommandEncoder new_computeCommandEncoder
     new_blitCommandEncoder encode_load_action encode_store_action).
Local Abbreviation encoder_answer' :=
  (encoder_answer new_renderCommandEncoder new_computeCommandEncoder
     new_blitCommandEncoder encode_load_action encode_store_action).

Lemma begin_pass_open_fails (cb : CommandBuffer) (call : BeginPass) :
  no_pass_open cb = false ->
  exists msg, begin_pass' call cb = AssertFail msg.
Proof.
  intros Hopen.
  destruct call; simpl;
    unfold begin_render_pass, begin_compute_pass, begin_copy_pass;
    rewrite Hopen; eexists; apply lucheck_msg_false.
Qed.

Lemma begin_pass_idle_returns (cb : CommandBuffer) (call : BeginPass) :
  no_pass_open cb = true ->
  exists cb',
    begin_pass' call cb = Returns cb' /\
    m_objs cb' = m_objs cb /\
    recording_state cb' =
      match encoder_answer' call cb with
      | Some _ => Some (pass_of call)
      | None => Some Idle
      end.
Proof.
  intros Hidle.
  assert (Hst := Hidle). apply recording_state_idle in Hst.
  unfold recording_state in Hst.
  destruct (m_render cb) eqn:Hr, (m_compute cb) eqn:Hc, (m_blit cb) eqn:Hb;
    try discriminate.
  destruct call; simpl;
    unfold begin_render_pass, begin_compute_pass, begin_copy_pass;
    rewrite Hidle, lucheck_msg_true;
    eexists; (split; [reflexivity|]); (split; [reflexivity|]);
    unfold recording_state; simpl; rewrite ?Hr, ?Hc, ?Hb;
    match goal with |- context [mbind ?f ?m] => destruct (mbind f m) end;
    reflexivity.
Qed.

(** C1, as the code has it.  A pass-opening call on a command buffer that
    has a render, compute or copy pass open stops in the failed pass-open
    check; on an idle command buffer the check passes and the call returns.
    The encoder Metal hands back is stored untested: the pass the call
    names is the one open pass when Metal has handed back an encoder, and
    no pass is open when it has handed back null. *)
Theorem begin_pass_exclusive (cb : CommandBuffer) (call : BeginPass) :
  match recording_state cb with
  | Some Idle =>
      exists cb',
        begin_pass' call cb = Returns cb' /\
        recording_state cb' =
          match encoder_answer' call cb with
          | Some _ => Some (pass_of call)
          | None => Some Idle
          end
  | _ => exists msg, begin_pass' call cb = AssertFail msg
  end.
Proof.
  destruct (no_pass_open cb) eqn:Hopen.
  - pose proof (proj1 (recording_state_idle cb) Hopen) as Hst.
    rewrite Hst.
    destruct (begin_pass_idle_returns cb call Hopen) as (cb' & Hret & _ & Hrs).
    exists cb'. split; assumption.
  - pose proof (proj1 (recording_state_not_idle cb) Hopen) as Hst.
    pose proof (begin_pass_open_fails cb call Hopen) as Hfail.
    destruct (recording_state cb) as [[| | |]|]; try exact Hfail.
    congruence.
Qed.

(** C9, as the code has it.  Whatever was attached before, [reset] leaves
    the list of attached objects empty; the three encoders are not touched,
    so an open pass stays open and the command buffer is idle after [reset]
    exactly when it was idle before.  [reset] succeeds exactly when Metal
    hands out a new command buffer. *)
Theorem reset_clears_attached_objects (cb : CommandBuffer)
    (objs : list handle) :
  let attached := foldl attach_device_object cb objs in
  let cb' := (reset new_commandBuffer attached).1 in
  m_objs attached = m_objs cb ++ objs /\
  m_objs cb' = [] /\
  m_render cb' = m_render cb /\
  m_compute cb' = m_compute cb /\
  m_blit cb' = m_blit cb /\
  recording_state cb' = recording_state cb /\
  ((reset new_commandBuffer attached).2 = ok tt <->
   is_Some (new_commandBuffer (m_command_queue_index cb))).
Proof.
  intros attached cb'.
  assert (Hq : m_command_queue_index attached = m_command_queue_index cb).
  { subst attached. clear cb'. revert cb.
    induction objs as [|o os IH]; intros cb; simpl; [reflexivity|].
    rewrite IH. reflexivity. }
  assert (Hrs : forall b,
            recording_state (set_m_buffer b (set_m_objs [] attached))
            = recording_state cb).
  { intros b. rewrite recording_state_set_m_buffer, recording_state_set_m_objs.
    apply recording_state_attach. }
  assert (Henc : forall a, m_render (foldl attach_device_object a objs)
                           = m_render a
                        /\ m_compute (foldl attach_device_object a objs)
                           = m_compute a
                        /\ m_blit (foldl attach_device_object a objs)
                           = m_blit a).
  { clear. induction objs as [|o os IH]; intros a; simpl; [auto|].
    destruct (IH (attach_device_object a o)) as (-> & -> & ->). auto. }
  destruct (Henc cb) as (Hr & Hc & Hb).
  split; [apply m_objs_attach|].
  subst cb'. unfold reset in *. simpl in *.
  rewrite Hq.
  destruct (new_commandBuffer (m_command_queue_index cb)) as [b|] eqn:Hnew;
    simpl in *.
  - split_and!; auto. split; [intros _; eexists; reflexivity | reflexivity].
  - split_and!; auto. split; [discriminate | intros [b Hb']; discriminate].
Qed.

End Properties.

(** C1, counterexample.  Metal hands back no compute encoder:
    [begin_compute_pass] on an idle command buffer returns, and no pass is
    open after it. *)
Lemma begin_opens_pass_fails :
  ~ begin_opens_pass sample_renderCommandEncoder failing_computeCommandEncoder
      sample_blitCommandEncoder sample_load_action sample_store_action
      BeginCompute idle_command_buffer.
Proof.
  intros (cb' & Hret & Hstate).
  injection Hret as <-. vm_compute in Hstate. discriminate.
Qed.

(** The same after a [reset] that got no command buffer from Metal: there
    is no command buffer to ask for an encoder, and [begin_compute_pass]
    leaves no pass open. *)
Example begin_after_failed_reset :
  let cb := (reset failing_commandBuffer idle_command_buffer).1 in
  (reset failing_commandBuffer idle_command_buffer).2
  = failed bad_platform_call
  /\ recording_state cb = Some Idle
  /\ exists cb',
       begin_compute_pass sample_computeCommandEncoder cb = Returns cb'
       /\ recording_state cb' = Some Idle.
Proof. split_and!; try reflexivity. eexists. split; reflexivity. Qed.

(** C9, counterexample.  With a render pass open and one object attached,
    [reset] succeeds and the render pass is still open. *)
Lemma reset_forces_idle_fails :
  ~ reset_forces_idle sample_commandBuffer
      (attach_device_object in_render_pass 5).
Proof.
  intros Hclaim.
  destruct (Hclaim _ eq_refl) as [_ Hidle].
  vm_compute in Hidle. discriminate.
Qed.

(** *** Descriptor set indices *)

Lemma set_graphics_descriptor_set_accepts (cb : CommandBuffer) (index : Z)
    (set : DescriptorSet.DescriptorSet) :
  index < 16 -> non_null (m_render cb) = true ->
  exists cb', set_graphics_descriptor_set cb index set = Returns cb'.
Proof.
  intros Hi Hr. unfold set_graphics_descriptor_set, assert_graphcis_context.
  replace (index <? 16) with true by (symmetry; apply Z.ltb_lt; exact Hi).
  rewrite Hr. simpl. eexists. reflexivity.
Qed.

(** The range check of [set_graphics_descriptor_sets] passes exactly when
    the index after the last one bound is below 16. *)
Lemma set_graphics_descriptor_sets_check (cb : CommandBuffer) (start_index : Z)
    (sets : list DescriptorSet.DescriptorSet) :
  0 <= start_index < 2 ^ 32 ->
  Z.of_nat (length sets) < 2 ^ 63 ->
  non_null (m_render cb) = true ->
  (exists cb', set_graphics_descriptor_sets cb start_index sets = Returns cb')
  <-> start_index + Z.of_nat (length sets) < 16.
Proof.
  intros Hs Hn Hr.
  unfold set_graphics_descriptor_sets, assert_graphcis_context.
  rewrite wrap64_small by lia. rewrite Hr.
  destruct (Z.ltb_spec (start_index + Z.of_nat (length sets)) 16) as [Hlt|Hge];
    simpl.
  - split; [intros _; exact Hlt | intros _; eexists; reflexivity].
  - split; [intros [cb' Hcb']; discriminate | lia].
Qed.

(** C10, at the input that separates the two entry points.  In a render
    pass, binding one descriptor set at index 15 goes through with
    [set_graphics_descriptor_set] and stops in the range check of
    [set_graphics_descriptor_sets], whose message names the range
    [0, 16). *)
Theorem descriptor_set_index_15 :
  set_graphics_descriptor_set in_render_pass 15 (sample_descriptor_set 7)
  = Returns
      (emit (setFragmentBuffer 7 0 15)
         (emit (setVertexBuffer 7 0 15) in_render_pass))
  /\ set_graphics_descriptor_sets in_render_pass 15 [sample_descriptor_set 7]
     = AssertFail
         "Invalid descriptor set index range. Descriptor set index range must be in [0, 16) on Metal.".
Proof. split; reflexivity. Qed.

(** *** Indexed draws *)

Lemma set_index_buffer_sample (f : Resource.Format) :
  set_index_buffer in_render_pass (index_view f)
  = Returns (with_index_buffer f).
Proof. reflexivity. Qed.

Section IndexedDraws.

Variable encode_index_type : Resource.Format -> MTLIndexType.

Local Abbreviation index_buffer_offset' :=
  (index_buffer_offset encode_index_type).

Lemma draw_indexed_call (cb : CommandBuffer) (buf : Resource.Buffer)
    (index_count start_index_location base_vertex_location : Z) :
  non_null (m_render cb) = true ->
  buffer (m_index_buffer_view cb) = Some buf ->
  draw_indexed encode_index_type cb index_count start_index_location
    base_vertex_location
  = Returns
      (emit (drawIndexedPrimitives (m_primitive_type cb) index_count
               (encode_index_type (format (m_index_buffer_view cb)))
               (Resource.m_buffer buf)
               (index_buffer_offset' cb start_index_location) 1
               base_vertex_location 0) cb).
Proof.
  intros Hr Hbuf. unfold draw_indexed, assert_graphcis_context.
  rewrite Hr, Hbuf. reflexivity.
Qed.

Lemma draw_indexed_instanced_call (cb : CommandBuffer) (buf : Resource.Buffer)
    (index_count instance_count start_index_location base_vertex_location
     start_instance_location : Z) :
  non_null (m_render cb) = true ->
  buffer (m_index_buffer_view cb) = Some buf ->
  draw_indexed_instanced encode_index_type cb index_count instance_count
    start_index_location base_vertex_location start_instance_location
  = Returns
      (emit (drawIndexedPrimitives (m_primitive_type cb) index_count
               (encode_index_type (format (m_index_buffer_view cb)))
               (Resource.m_buffer buf)
               (index_buffer_offset' cb start_index_location) instance_count
               base_vertex_location start_instance_location) cb).
Proof.
  intros Hr Hbuf. unfold draw_indexed_instanced, assert_graphcis_context.
  rewrite Hr, Hbuf. reflexivity.
Qed.

(** The stride is 2 or 4, whatever the index type. *)
Lemma index_stride_cases (type : MTLIndexType) :
  index_stride type = 2 \/ index_stride type = 4.
Proof. destruct type; [left|right]; reflexivity. Qed.

(** With [r16_uint] encoded as the 16-bit and [r32_uint] as the 32-bit index
    type, and as long as the product fits 32 bits, the offset is the start
    index times 2 for [r16_uint] and times 4 for [r32_uint]. *)
Lemma index_buffer_offset_in_range (cb : CommandBuffer)
    (start_index_location : Z) :
  encode_index_type Resource.r16_uint = IndexTypeUInt16 ->
  encode_index_type Resource.r32_uint = IndexTypeUInt32 ->
  0 <= start_index_location ->
  start_index_location * 4 < 2 ^ 32 ->
  (format (m_index_buffer_view cb) = Resource.r16_uint ->
   index_buffer_offset' cb start_index_location = start_index_location * 2)
  /\ (format (m_index_buffer_view cb) = Resource.r32_uint ->
      index_buffer_offset' cb start_index_location = start_index_location * 4).
Proof.
  intros H16 H32 H0 H4. unfold index_buffer_offset.
  split; intros ->; rewrite ?H16, ?H32; simpl; apply wrap32_small; lia.
Qed.

(** At the start index 2^31 the product is a multiple of 2^32 for either
    stride. *)
Lemma index_buffer_offset_wraps (cb : CommandBuffer) :
  index_buffer_offset' cb (2 ^ 31) = 0.
Proof.
  unfold index_buffer_offset.
  destruct (index_stride_cases
              (encode_index_type (format (m_index_buffer_view cb))))
    as [-> | ->]; reflexivity.
Qed.

(** C3, at a start index whose byte offset does not fit 32 bits.  Whatever
    the index format and its encoding, with [start_index_location] 2^31
    both indexed draws hand Metal the byte offset 0, where 2^31 times the
    stride is 2^32 or 2^33: the product is taken in 32 bits and widened
    afterwards. *)
Theorem draw_indexed_offset_wraps (f : Resource.Format) :
  draw_indexed encode_index_type (with_index_buffer f) 3 (2 ^ 31) 0
  = Returns
      (emit (drawIndexedPrimitives 3 3 (encode_index_type f) 8 0 1 0 0)
         (with_index_buffer f))
  /\ draw_indexed_instanced encode_index_type (with_index_buffer f) 3 1
       (2 ^ 31) 0 0
     = Returns
         (emit (drawIndexedPrimitives 3 3 (encode_index_type f) 8 0 1 0 0)
            (with_index_buffer f))
  /\ 2 ^ 31 * index_stride (encode_index_type f) <> 0.
Proof.
  split; [|split].
  - rewrite (draw_indexed_call _ sample_index_buffer) by reflexivity.
    rewrite index_buffer_offset_wraps. reflexivity.
  - rewrite (draw_indexed_instanced_call _ sample_index_buffer)
      by reflexivity.
    rewrite index_buffer_offset_wraps. reflexivity.
  - destruct (index_stride_cases (encode_index_type f)) as [-> | ->];
      discriminate.
Qed.

End IndexedDraws.

Example draw_indexed_10_r32 :
  draw_indexed sample_encode_index_type (with_index_buffer Resource.r32_uint)
    36 10 0
  = Returns
      (emit (drawIndexedPrimitives 3 36 IndexTypeUInt32 8 40 1 0 0)
         (with_index_buffer Resource.r32_uint)).
Proof. reflexivity. Qed.

Example draw_indexed_10_r16 :
  draw_indexed sample_encode_index_type (with_index_buffer Resource.r16_uint)
    36 10 0
  = Returns
      (emit (drawIndexedPrimitives 3 36 IndexTypeUInt16 8 20 1 0 0)
         (with_index_buffer Resource.r16_uint)).
Proof. reflexivity. Qed.

(** *** Copies *)

(** C4.  In an open copy pass [copy_resource] returns, and the calls
    encoded on the blit encoder after it are those encoded before followed
    by: for two buffers, one [copyFromBuffer] of
    [min (size dst) (size src)] bytes from offset 0 of the source to
    offset 0 of the destination; for two textures, one [copyFromTexture]
    of the whole source to the destination; for a buffer and a texture,
    nothing.  The copy pass stays open and nothing else of the command
    buffer changes. *)
Theorem copy_resource_dispatch (cb : CommandBuffer)
    (dst src : Resource.IResource) :
  non_null (m_blit cb) = true ->
  exists cb',
    copy_resource cb dst src = Returns cb'
    /\ encoded cb'
       = encoded cb
         ++ match dst, src with
            | Resource.buffer_object d, Resource.buffer_object s =>
                [copyFromBuffer (Resource.m_buffer s) 0 (Resource.m_buffer d) 0
                   (Z.min (Resource.size d) (Resource.size s))]
            | Resource.texture_object d, Resource.texture_object s =>
                [copyFromTexture (Resource.m_texture s) (Resource.m_texture d)]
            | _, _ => []
            end
    /\ m_blit cb' = m_blit cb
    /\ recording_state cb' = recording_state cb
    /\ m_objs cb' = m_objs cb
    /\ m_buffer cb' = m_buffer cb.
Proof.
  intros Hblit. unfold copy_resource, assert_copy_context.
  rewrite Hblit, lucheck_msg_true.
  destruct dst as [d|d], src as [s|s]; simpl;
    eexists; (split; [reflexivity|]); simpl;
    rewrite ?app_nil_r; split_and!; reflexivity.
Qed.

Lemma copy_resource_dispatch_witness :
  exists cb',
    copy_resource in_copy_pass
      (Resource.buffer_object (sample_buffer 5 100))
      (Resource.buffer_object (sample_buffer 6 64))
    = Returns cb'
    /\ encoded cb' = encoded in_copy_pass ++ [copyFromBuffer 6 0 5 0 64]
    /\ m_blit cb' = m_blit in_copy_pass
    /\ recording_state cb' = recording_state in_copy_pass
    /\ m_objs cb' = m_objs in_copy_pass
    /\ m_buffer cb' = m_buffer in_copy_pass.
Proof.
  apply (copy_resource_dispatch in_copy_pass
           (Resource.buffer_object (sample_buffer 5 100))
           (Resource.buffer_object (sample_buffer 6 64))).
  reflexivity.
Defined.

(** Two textures: one whole-texture copy, source first. *)
Example copy_resource_textures :
  exists cb',
    copy_resource in_copy_pass
      (Resource.texture_object (sample_texture 5 16 16))
      (Resource.texture_object (sample_texture 6 16 16))
    = Returns cb'
    /\ encoded cb' = [copyFromTexture 6 5].
Proof. eexists. split; reflexivity. Qed.

Example copy_resource_mismatch :
  copy_resource in_copy_pass
    (Resource.buffer_object (sample_buffer 5 100))
    (Resource.texture_object (sample_texture 6 16 16))
  = Returns in_copy_pass.
Proof. reflexivity. Qed.

(** *** Barriers *)

(** C2, counterexample.  In a compute pass, a barrier on one buffer encodes
    no [memoryBarrier]. *)
Lemma barrier_in_compute_pass_fails :
  ~ barrier_in_compute_pass in_compute_pass [sample_buffer_barrier] [].
Proof.
  intros Hclaim. specialize (Hclaim 3 eq_refl). discriminate.
Qed.

(** C2, as the code has it.  [resource_barrier] changes nothing: whatever
    the barriers and whatever pass is open, the command buffer, its open
    encoder, its attached objects and the calls encoded so far are the same
    after the call, and no [memoryBarrier] is among the calls it adds, for it
    adds none. *)
Theorem resource_barrier_no_op (cb : CommandBuffer)
    (buffer_barriers : list BufferBarrier)
    (texture_barriers : list TextureBarrier) :
  resource_barrier cb buffer_barriers texture_barriers = cb
  /\ encoded (resource_barrier cb buffer_barriers texture_barriers)
     = encoded cb
  /\ recording_state (resource_barrier cb buffer_barriers texture_barriers)
     = recording_state cb.
Proof. unfold resource_barrier. split_and!; reflexivity. Qed.

(** *** Render target size *)

Section RenderPass.

Variable new_renderCommandEncoder :
  handle -> RenderPassDescriptor -> option handle.
Variable encode_load_action : LoadOp -> MTLLoadAction.
Variable encode_store_action : StoreOp -> bool -> MTLStoreAction.

Local Abbreviation descriptor_of :=
  (render_pass_descriptor encode_load_action encode_store_action).

Lemma color_attachments_loop_extent (desc : RenderPassDesc) (n : nat) :
  forall i attachments wd ht,
    (let '(_, wd', ht') :=
       color_attachments_loop encode_load_action encode_store_action desc n i
         (attachments, wd, ht) in
     (wd', ht'))
    = from_option texture_extent (wd, ht)
        (last (leading_textures (color_slots desc i n))).
Proof.
  induction n as [|n IH]; intros i attachments wd ht.
  - reflexivity.
  - unfold color_slots. simpl.
    destruct (texture (color_attachment_at desc i)) as [tex|] eqn:Htex.
    + rewrite IH. fold (color_slots desc (S i) n).
      rewrite last_cons.
      destruct (last (leading_textures (color_slots desc (S i) n)));
        reflexivity.
    + reflexivity.
Qed.

Lemma render_pass_descriptor_extent (desc : RenderPassDesc) :
  render_target_extent (descriptor_of desc)
  = from_option texture_extent (0, 0) (last (bound_attachments desc)).
Proof.
  unfold render_target_extent, render_pass_descriptor, bound_attachments.
  pose proof (color_attachments_loop_extent desc 8 0 ∅ 0 0) as Hloop.
  destruct (color_attachments_loop _ _ desc 8 0 (∅, 0, 0)) as [[atts wd] ht].
  rewrite last_app.
  destruct (ds_texture (depth_stencil_attachment desc)) as [tex|]; simpl.
  - reflexivity.
  - exact Hloop.
Qed.

(** C5, as the code has it.  [begin_render_pass] on an idle command buffer
    hands Metal a descriptor whose render target width and height are those
    of the last attachment bound: of the depth stencil attachment when it
    has a texture, else of the last color attachment before the first empty
    color slot (0 by 0 when nothing is bound). *)
Theorem render_target_extent_last_attachment (cb : CommandBuffer)
    (desc : RenderPassDesc) :
  no_pass_open cb = true ->
  exists cb' d,
    begin_render_pass new_renderCommandEncoder encode_load_action
      encode_store_action cb desc = Returns cb'
    /\ encoded cb' = encoded cb ++ [renderCommandEncoder d]
    /\ render_target_extent d
       = from_option texture_extent (0, 0) (last (bound_attachments desc)).
Proof.
  intros Hidle. unfold begin_render_pass.
  rewrite Hidle, lucheck_msg_true.
  eexists. exists (descriptor_of desc).
  split; [reflexivity|]. split; [reflexivity|].
  apply render_pass_descriptor_extent.
Qed.

(** Attachments of one size: then the first one's size is the render
    target's. *)
Lemma render_target_extent_uniform (desc : RenderPassDesc) (wd ht : Z) :
  Forall (λ tex, texture_extent tex = (wd, ht)) (bound_attachments desc) ->
  bound_attachments desc <> [] ->
  render_target_extent (descriptor_of desc) = (wd, ht).
Proof.
  intros Hall Hne. rewrite render_pass_descriptor_extent.
  destruct (last (bound_attachments desc)) as [tex|] eqn:Hlast.
  - simpl. rewrite Forall_forall in Hall. apply Hall.
    apply last_Some in Hlast as [l' ->]. apply elem_of_app. right.
    apply list_elem_of_singleton. reflexivity.
  - apply last_None in Hlast. contradiction.
Qed.

End RenderPass.

Lemma render_target_extent_last_attachment_witness :
  exists cb' d,
    begin_render_pass sample_renderCommandEncoder sample_load_action
      sample_store_action idle_command_buffer two_color_desc = Returns cb'
    /\ encoded cb' = encoded idle_command_buffer ++ [renderCommandEncoder d]
    /\ render_target_extent d = (32, 32).
Proof.
  apply (render_target_extent_last_attachment sample_renderCommandEncoder
           sample_load_action sample_store_action idle_command_buffer
           two_color_desc).
  reflexivity.
Defined.

(** C5, counterexample.  Two color attachments, 64 by 64 in slot 0 and 32 by
    32 in slot 1: the render target is 32 by 32. *)
Lemma extent_of_first_attachment_fails :
  ~ extent_of_first_attachment sample_load_action sample_store_action
      two_color_desc.
Proof.
  intros Hclaim. specialize (Hclaim (sample_texture 20 64 64) eq_refl).
  vm_compute in Hclaim. discriminate.
Qed.

Example extent_depth_stencil_wins :
  render_target_extent
    (render_pass_descriptor sample_load_action sample_store_action
       (render_pass_desc_of [color_attachment_of (sample_texture 20 64 64)]
          (depth_stencil_attachment_of (sample_texture 22 16 16))))
  = (16, 16).
Proof. reflexivity. Qed.

End CommandBufferFacts.

(** ** D3D12 resource heap *)
Module ResourceHeapFacts.
Import Runtime ResourceHeap.

Section Declarations.

Variable buffer : Z.
Variable texture_rt_ds : Z.
Variable texture_non_rt_ds : Z.
Variable texture_msaa : Z.
Variable encode_heap_properties : Z -> D3D12_HEAP_PROPERTIES.
Variable encode_d3d12_error : Z -> ErrCode.
Variable CreateHeap : D3D12_HEAP_DESC -> Z.

Local Abbreviation heap_desc' :=
  (heap_desc buffer texture_rt_ds texture_non_rt_ds texture_msaa
     encode_heap_properties).
Local Abbreviation init' :=
  (init buffer texture_rt_ds texture_non_rt_ds texture_msaa
     encode_heap_properties encode_d3d12_error CreateHeap).

Lemma heap_desc_flags (desc : ResourceHeapDesc) :
  let flags := Flags (heap_desc' desc) in
  has_flag flags D3D12_HEAP_FLAG_DENY_BUFFERS
  = negb (test_flags (usages desc) buffer)
  /\ has_flag flags D3D12_HEAP_FLAG_DENY_RT_DS_TEXTURES
     = negb (test_flags (usages desc) texture_rt_ds)
  /\ has_flag flags D3D12_HEAP_FLAG_DENY_NON_RT_DS_TEXTURES
     = negb (test_flags (usages desc) texture_non_rt_ds).
Proof.
  unfold heap_desc. simpl.
  destruct (test_flags (usages desc) buffer),
           (test_flags (usages desc) texture_rt_ds),
           (test_flags (usages desc) texture_non_rt_ds);
    split_and!; reflexivity.
Qed.

(** C8.  A heap that [init] has created denies exactly the resource
    categories its usage flags do not name: its flags have
    [DENY_BUFFERS] iff [buffer] is not among the usages,
    [DENY_RT_DS_TEXTURES] iff [texture_rt_ds] is not, and
    [DENY_NON_RT_DS_TEXTURES] iff [texture_non_rt_ds] is not. *)
Theorem heap_deny_flags (heap heap' : ResourceHeap) (desc : ResourceHeapDesc) :
  init' heap desc = (heap', ok tt) ->
  exists h,
    m_heap heap' = Some h
    /\ (has_flag (Flags (GetDesc h)) D3D12_HEAP_FLAG_DENY_BUFFERS = true
        <-> test_flags (usages desc) buffer = false)
    /\ (has_flag (Flags (GetDesc h)) D3D12_HEAP_FLAG_DENY_RT_DS_TEXTURES = true
        <-> test_flags (usages desc) texture_rt_ds = false)
    /\ (has_flag (Flags (GetDesc h)) D3D12_HEAP_FLAG_DENY_NON_RT_DS_TEXTURES
        = true
        <-> test_flags (usages desc) texture_non_rt_ds = false).
Proof.
  unfold init. intros Hinit.
  destruct (FAILED (CreateHeap (heap_desc' desc))); [discriminate|].
  injection Hinit as <-.
  exists {| GetDesc := heap_desc' desc |}. split; [reflexivity|].
  destruct (heap_desc_flags desc) as (Hb & Hrt & Hnon).
  simpl in *. rewrite Hb, Hrt, Hnon.
  split_and!; apply negb_true_iff.
Qed.

End Declarations.

Lemma heap_deny_flags_witness :
  exists h,
    m_heap (sample_init {| m_heap := None |} buffer_only).1 = Some h
    /\ (has_flag (Flags (GetDesc h)) D3D12_HEAP_FLAG_DENY_BUFFERS = true
        <-> test_flags (usages buffer_only) 1 = false)
    /\ (has_flag (Flags (GetDesc h)) D3D12_HEAP_FLAG_DENY_RT_DS_TEXTURES = true
        <-> test_flags (usages buffer_only) 2 = false)
    /\ (has_flag (Flags (GetDesc h)) D3D12_HEAP_FLAG_DENY_NON_RT_DS_TEXTURES
        = true
        <-> test_flags (usages buffer_only) 4 = false).
Proof.
  apply (heap_deny_flags 1 2 4 8 sample_heap_properties platform_error
           (λ _, 0) {| m_heap := None |}
           (sample_init {| m_heap := None |} buffer_only).1 buffer_only).
  reflexivity.
Defined.

Example buffer_only_heap_flags :
  Flags (heap_desc 1 2 4 8 sample_heap_properties buffer_only) = 0xC0.
Proof. reflexivity. Qed.

End ResourceHeapFacts.
(** ** Metal command buffer: the recording state machine *)
Module CommandBufferCallsFacts.
Import Runtime RuntimeFacts CommandBuffer CommandBufferFacts CommandBufferCalls.

Section Properties.

Variable new_renderCommandEncoder :
  handle -> RenderPassDescriptor -> option handle.
Variable new_computeCommandEncoder : handle -> option handle.
Variable new_blitCommandEncoder : handle -> option handle.
Variable encode_load_action : LoadOp -> MTLLoadAction.
Variable encode_store_action : StoreOp -> bool -> MTLStoreAction.
Variable encode_index_type : Resource.Format -> MTLIndexType.
Variable vertex_buffer_location : Z -> Z.

Local Abbreviation begin_pass' :=
  (begin_pass new_renderCommandEncoder new_computeCommandEncoder
     new_blitCommandEncoder encode_load_action encode_store_action).
Local Abbreviation encoder_answer' :=
  (encoder_answer new_renderCommandEncoder new_computeCommandEncoder
     new_blitCommandEncoder encode_load_action encode_store_action).
Local Abbreviation run' :=
  (run new_renderCommandEncoder new_computeCommandEncoder
     new_blitCommandEncoder encode_load_action encode_store_action
     encode_index_type vertex_buffer_location).
Local Abbreviation run_all' :=
  (run_all new_renderCommandEncoder new_computeCommandEncoder
     new_blitCommandEncoder encode_load_action encode_store_action
     encode_index_type vertex_buffer_location).
Local Abbreviation next_state' :=
  (next_state new_renderCommandEncoder new_computeCommandEncoder
     new_blitCommandEncoder encode_load_action encode_store_action).

(** Unfolds the call at hand down to its checks. *)
Ltac unfold_call :=
  unfold run, begin_pass, begin_render_pass, begin_compute_pass,
    begin_copy_pass, set_graphics_pipeline_layout, set_vertex_buffers,
    set_index_buffer, set_graphics_descriptor_set,
    set_graphics_descriptor_sets, draw_indexed, draw_indexed_instanced,
    end_render_pass, set_compute_pipeline_layout, end_compute_pass,
    copy_resource, copy_buffer, end_copy_pass, assert_graphcis_context,
    assert_compute_context, assert_copy_context, lucheck_msg, assert_fail.

(** What a returning call leaves behind, field by field. *)
Lemma run_returns_fields (c : Call) (cb cb' : CommandBuffer) :
  run' c cb = Returns cb' ->
  (exists added, encoded cb' = encoded cb ++ added)
  /\ m_objs cb' = m_objs cb ++ attached [c]
  /\ m_buffer cb' = m_buffer cb
  /\ m_command_queue_index cb' = m_command_queue_index cb.
Proof.
  destruct c; unfold_call; intros Hrun;
    repeat match type of Hrun with
           | context [if ?b then _ else _] => destruct b
           | context [match ?o with _ => _ end] => destruct o
           end;
    try discriminate; injection Hrun as <-; simpl;
    rewrite ?app_nil_r;
    (split_and!; [ | reflexivity ..]);
    first [ by exists [] ; rewrite app_nil_r
          | by eexists; rewrite <- ?app_assoc; reflexivity ].
Qed.

(** A call that returns was made in its own state, and leaves the state of
    the table. *)
Lemma run_returns_state (c : Call) (cb cb' : CommandBuffer) (s : PassState) :
  recording_state cb = Some s ->
  run' c cb = Returns cb' ->
  in_scope c s = true /\ recording_state cb' = Some (next_state' c s cb).
Proof.
  intros Hs. unfold recording_state in Hs.
  destruct (m_render cb) eqn:Er, (m_compute cb) eqn:Ec, (m_blit cb) eqn:Eb;
    try discriminate; injection Hs as <-.
  all: intros Hrun; destruct c as [| call | | | | | | | | | | | | | | |];
    try destruct call;
    revert Hrun; unfold_call; unfold no_pass_open, is_null;
    rewrite ?Er, ?Ec, ?Eb; simpl; intros Hrun;
    repeat match type of Hrun with
           | context [if ?b then _ else _] => destruct b
           | context [match ?o with _ => _ end] => destruct o
           end;
    try discriminate Hrun; injection Hrun as <-;
    (split; [reflexivity|]);
    unfold recording_state, next_state, encoder_answer, resource_barrier,
      write_timestamp, attach_device_object;
    simpl; rewrite ?Er, ?Ec, ?Eb; simpl;
    repeat match goal with
           | |- context [mbind ?f ?m] => destruct (mbind f m)
           end;
    reflexivity.
Qed.

(** X2.  The recording state machine.  From a state with at most one pass
    open, a call written for another state stops in its failed check; a
    call that returns was made in its own state and leaves the state the
    table [next_state] gives: the opened pass after a pass-opening call to
    which Metal has handed an encoder, idle after a pass-closing call, the
    state it found after every other call. *)
Theorem call_transition (c : Call) (cb : CommandBuffer) (s : PassState) :
  recording_state cb = Some s ->
  (in_scope c s = false -> exists msg, run' c cb = AssertFail msg)
  /\ (forall cb', run' c cb = Returns cb' ->
        in_scope c s = true
        /\ recording_state cb' = Some (next_state' c s cb)).
Proof.
  intros Hs. split; [|intros cb'; apply run_returns_state; exact Hs].
  unfold recording_state in Hs.
  destruct (m_render cb) eqn:Er, (m_compute cb) eqn:Ec, (m_blit cb) eqn:Eb;
    try discriminate; injection Hs as <-.
  all: intros Hout; destruct c as [| call | | | | | | | | | | | | | | |];
    try discriminate Hout; try destruct call;
    unfold_call; unfold no_pass_open, is_null;
    rewrite ?Er, ?Ec, ?Eb; simpl;
    repeat match goal with
           | |- context [if ?b then _ else _] => destruct b
           end;
    eexists; reflexivity.
Qed.

(** X1.  A pass opened and closed.  On an idle command buffer, with the
    encoder Metal hands back, the pass-opening call followed by its closing
    call returns, leaves the command buffer idle, and has added to the
    encoded calls exactly two: the request for the encoder of the pass
    ([renderCommandEncoder] with the descriptor built from the description,
    [computeCommandEncoder] or [blitCommandEncoder]) and the [endEncoding]
    of the encoder handed back; the attached objects are as before. *)
Theorem pass_round_trip (call : BeginPass) (cb : CommandBuffer)
    (encoder : handle) :
  recording_state cb = Some Idle ->
  encoder_answer' call cb = Some encoder ->
  exists cb1 cb2,
    begin_pass' call cb = Returns cb1
    /\ recording_state cb1 = Some (pass_of call)
    /\ encoded cb1
       = encoded cb
         ++ [match call with
             | BeginRender desc =>
                 renderCommandEncoder
                   (render_pass_descriptor encode_load_action
                      encode_store_action desc)
             | BeginCompute => computeCommandEncoder
             | BeginCopy => blitCommandEncoder
             end]
    /\ end_pass call cb1 = Returns cb2
    /\ recording_state cb2 = Some Idle
    /\ encoded cb2 = encoded cb1 ++ [endEncoding encoder]
    /\ m_objs cb2 = m_objs cb.
Proof.
  intros Hidle Hanswer.
  assert (Hopen : no_pass_open cb = true)
    by (apply recording_state_idle; exact Hidle).
  unfold recording_state in Hidle.
  destruct (m_render cb) eqn:Hr, (m_compute cb) eqn:Hc, (m_blit cb) eqn:Hb;
    try discriminate.
  destruct call as [desc| |]; simpl in Hanswer |- *;
    unfold begin_render_pass, begin_compute_pass, begin_copy_pass;
    rewrite Hopen, lucheck_msg_true; simpl; rewrite Hanswer.
  - set (creation := renderCommandEncoder _).
    exists (set_m_render (Some encoder) (emit creation cb)).
    exists (set_m_render None
              (emit (endEncoding encoder)
                 (set_m_render (Some encoder) (emit creation cb)))).
    unfold recording_state. simpl. rewrite Hc, Hb.
    split_and!; reflexivity.
  - exists (set_m_compute (Some encoder) (emit computeCommandEncoder cb)).
    exists (set_m_compute None
              (emit (endEncoding encoder)
                 (set_m_compute (Some encoder)
                    (emit computeCommandEncoder cb)))).
    unfold recording_state. simpl. rewrite Hr, Hb.
    split_and!; reflexivity.
  - exists (set_m_blit (Some encoder) (emit blitCommandEncoder cb)).
    exists (set_m_blit None
              (emit (endEncoding encoder)
                 (set_m_blit (Some encoder) (emit blitCommandEncoder cb)))).
    unfold recording_state. simpl. rewrite Hr, Hc.
    split_and!; reflexivity.
Qed.

(** X3.  A sequence of recording calls that returns.  Started with at most
    one pass open, it ends with at most one pass open; the calls encoded
    before it are still there, in front of the ones it added; the attached
    objects are those attached before followed by the ones the sequence
    attached, in order; the Metal command buffer recorded into is the
    same. *)
Theorem run_all_invariants (calls : list Call) :
  forall (cb cb' : CommandBuffer) (s : PassState),
    recording_state cb = Some s ->
    run_all' calls cb = Returns cb' ->
    (exists s', recording_state cb' = Some s')
    /\ (exists added, encoded cb' = encoded cb ++ added)
    /\ m_objs cb' = m_objs cb ++ attached calls
    /\ m_buffer cb' = m_buffer cb.
Proof.
  induction calls as [|c rest IH]; intros cb cb' s Hs Hrun; simpl in Hrun.
  - injection Hrun as <-. split_and!; eauto.
    + exists []. symmetry. apply app_nil_r.
    + symmetry. apply app_nil_r.
  - destruct (run' c cb) as [cb1| |] eqn:Hc; try discriminate.
    destruct (run_returns_state c cb cb1 s Hs Hc) as [_ Hs1].
    destruct (run_returns_fields c cb cb1 Hc)
      as ((added1 & Henc1) & Hobjs1 & Hbuf1 & _).
    destruct (IH cb1 cb' _ Hs1 Hrun) as (Hs' & (added & Henc) & Hobjs & Hbuf).
    split_and!.
    + exact Hs'.
    + exists (added1 ++ added). rewrite Henc, Henc1, app_assoc. reflexivity.
    + rewrite Hobjs, Hobjs1, <- app_assoc. f_equal.
      unfold attached. simpl. destruct c; reflexivity.
    + congruence.
Qed.

(** X4.  [draw_indexed] is [draw_indexed_instanced] for one instance
    starting at instance 0: whatever the command buffer, the two calls have
    the same outcome. *)
Theorem draw_indexed_is_one_instance (cb : CommandBuffer)
    (index_count start_index_location base_vertex_location : Z) :
  draw_indexed encode_index_type cb index_count start_index_location
    base_vertex_location
  = draw_indexed_instanced encode_index_type cb index_count 1
      start_index_location base_vertex_location 0.
Proof. reflexivity. Qed.

Lemma run_returns_index_buffer (c : Call) (cb cb' : CommandBuffer) :
  run' c cb = Returns cb' ->
  m_index_buffer_view cb' = index_buffer_after [c] (m_index_buffer_view cb)
  /\ m_primitive_type cb' = m_primitive_type cb.
Proof.
  destruct c; unfold_call; intros Hrun;
    repeat match type of Hrun with
           | context [if ?b then _ else _] => destruct b
           | context [match ?o with _ => _ end] => destruct o
           end;
    try discriminate; injection Hrun as <-; split; reflexivity.
Qed.

(** X16.  Only [set_index_buffer] changes the index buffer view.  After a
    sequence of recording calls that returns, the view in place is that of
    the last [set_index_buffer] of the sequence, and the one in place
    before when there is none: closing a render pass and opening another
    keeps it. *)
Theorem index_buffer_view_persists (calls : list Call) :
  forall (cb cb' : CommandBuffer),
    run_all' calls cb = Returns cb' ->
    m_index_buffer_view cb'
    = index_buffer_after calls (m_index_buffer_view cb).
Proof.
  induction calls as [|c rest IH]; intros cb cb' Hrun; simpl in Hrun.
  - injection Hrun as <-. reflexivity.
  - destruct (run' c cb) as [cb1| |] eqn:Hc; try discriminate.
    destruct (run_returns_index_buffer c cb cb1 Hc) as [Hview _].
    rewrite (IH cb1 cb' Hrun), Hview. reflexivity.
Qed.

(** X17.  An indexed draw after [set_index_buffer].  In a render pass,
    setting an index buffer view with a buffer and drawing encodes one
    [drawIndexedPrimitives]: on the Metal buffer of the view's buffer, with
    the index type of the view's format and the index buffer offset
    [start_index_location] times the stride, as a [u32].  The offset and
    the size of the view are not passed on. *)
Theorem set_index_buffer_then_draw (cb : CommandBuffer)
    (view : IndexBufferView) (buf : Resource.Buffer)
    (index_count_per_instance instance_count start_index_location
     base_vertex_location start_instance_location : Z) :
  recording_state cb = Some RenderPass ->
  buffer view = Some buf ->
  exists cb',
    run_all'
      [SetIndexBuffer view;
       DrawIndexedInstanced index_count_per_instance instance_count
         start_index_location base_vertex_location start_instance_location]
      cb
    = Returns cb'
    /\ encoded cb'
       = encoded cb
         ++ [drawIndexedPrimitives (m_primitive_type cb)
               index_count_per_instance (encode_index_type (format view))
               (Resource.m_buffer buf)
               (wrap32 (start_index_location
                        * index_stride (encode_index_type (format view))))
               instance_count base_vertex_location start_instance_location]
    /\ recording_state cb' = Some RenderPass.
Proof.
  intros Hs Hbuf. unfold recording_state in Hs.
  destruct (m_render cb) eqn:Er, (m_compute cb) eqn:Ec, (m_blit cb) eqn:Eb;
    try discriminate.
  simpl. unfold set_index_buffer, draw_indexed_instanced,
    assert_graphcis_context.
  rewrite Er, lucheck_msg_true. simpl. rewrite Er, lucheck_msg_true, Hbuf.
  eexists. split; [reflexivity|].
  unfold recording_state. simpl. rewrite Er, Ec, Eb.
  split; reflexivity.
Qed.

End Properties.

(** X5.  [copy_resource] on two buffers is [copy_buffer] from offset 0 to
    offset 0 over the smaller of the two sizes, in any state of the command
    buffer; on a buffer and a texture it is a copy pass check and nothing
    more. *)
Theorem copy_resource_is_copy_buffer (cb : CommandBuffer)
    (dst src : Resource.Buffer) (tex : Resource.Texture) :
  copy_resource cb (Resource.buffer_object dst) (Resource.buffer_object src)
  = copy_buffer cb dst 0 src 0 (Z.min (Resource.size dst) (Resource.size src))
  /\ copy_resource cb (Resource.buffer_object dst) (Resource.texture_object tex)
     = assert_copy_context cb (Returns cb)
  /\ copy_resource cb (Resource.texture_object tex) (Resource.buffer_object src)
     = assert_copy_context cb (Returns cb).
Proof. split_and!; reflexivity. Qed.


(** *** The color attachments of a render pass *)

Section RenderPass.

Variable encode_load_action : LoadOp -> MTLLoadAction.
Variable encode_store_action : StoreOp -> bool -> MTLStoreAction.

Local Abbreviation loop' :=
  (color_attachments_loop encode_load_action encode_store_action).
Local Abbreviation descriptor_at desc j :=
  (color_attachment_descriptor encode_load_action encode_store_action
     (color_attachment_at desc j) (resolve_attachment_at desc j)).

Lemma leading_textures_length (slots : list ColorAttachment) :
  (length (leading_textures slots) <= length slots)%nat.
Proof.
  induction slots as [|src rest IH]; simpl; [lia|].
  destruct (texture src); simpl; lia.
Qed.

(** The slots before the first empty one have a texture; the first empty
    one, if there is one, has none. *)
Lemma leading_textures_slots (desc : RenderPassDesc) (n : nat) :
  forall i j,
    ((i <= j < i + length (leading_textures (color_slots desc i n)))%nat ->
     is_Some (texture (color_attachment_at desc j)))
    /\ (j = (i + length (leading_textures (color_slots desc i n)))%nat ->
        (j < i + n)%nat -> texture (color_attachment_at desc j) = None).
Proof.
  induction n as [|n IH]; intros i j; unfold color_slots; simpl.
  - split; intros; lia.
  - fold (color_slots desc (S i) n).
    destruct (texture (color_attachment_at desc i)) as [tex|] eqn:Htex; simpl.
    + destruct (IH (S i) j) as [Hin Hend]. split.
      * intros Hj. destruct (decide (j = i)) as [->|Hne].
        -- rewrite Htex. eauto.
        -- apply Hin. lia.
      * intros Hj Hlt. apply Hend; lia.
    + split; [lia|]. intros -> _. rewrite Nat.add_0_r. exact Htex.
Qed.

Lemma color_attachments_loop_lookup (desc : RenderPassDesc) (n : nat) :
  forall i attachments wd ht j,
    (loop' desc n i (attachments, wd, ht)).1.1 !! j
    = if decide (i <= j < i + length (leading_textures (color_slots desc i n)))%nat
      then descriptor_at desc j <$> texture (color_attachment_at desc j)
      else attachments !! j.
Proof.
  induction n as [|n IH]; intros i attachments wd ht j.
  - simpl. destruct (decide _) as [Hj|_]; [lia|reflexivity].
  - unfold color_slots. simpl. fold (color_slots desc (S i) n).
    destruct (texture (color_attachment_at desc i)) as [tex|] eqn:Htex; simpl.
    + rewrite IH.
      destruct (decide (S i <= j < S i + _)%nat) as [Hin|Hout].
      * destruct (decide _) as [_|Hno]; [reflexivity|lia].
      * destruct (decide (j = i)) as [->|Hne].
        -- rewrite lookup_insert_eq.
           destruct (decide _) as [_|Hno]; [|lia].
           rewrite Htex. reflexivity.
        -- rewrite lookup_insert_ne by congruence.
           destruct (decide _) as [Hyes|_]; [lia|reflexivity].
    + destruct (decide _) as [Hj|_]; [lia|reflexivity].
Qed.

(** X6.  The attachments of the descriptor [begin_render_pass] hands to
    Metal.  The color attachments are those of the slots 0 to [k - 1],
    where [k], at most 8, is the first slot without a texture: a slot after
    an empty one is left out even when it has a texture.  Each one carries
    its slot's texture, level, slice, load action and clear color, and a
    resolve target exactly when the resolve slot of the same index has a
    texture.  The depth and the stencil attachment name the same texture,
    level and slice. *)
Theorem render_pass_attachments (desc : RenderPassDesc) (j : nat) :
  let d := render_pass_descriptor encode_load_action encode_store_action desc in
  let k := length (leading_textures (color_slots desc 0 8)) in
  (k <= 8)%nat
  /\ ((k < 8)%nat -> texture (color_attachment_at desc k) = None)
  /\ colorAttachments d !! j
     = (if decide (j < k)%nat
        then descriptor_at desc j <$> texture (color_attachment_at desc j)
        else None)
  /\ ((j < k)%nat -> is_Some (colorAttachments d !! j))
  /\ dsa_texture (depthAttachment d) = dsa_texture (stencilAttachment d)
  /\ dsa_level (depthAttachment d) = dsa_level (stencilAttachment d)
  /\ dsa_slice (depthAttachment d) = dsa_slice (stencilAttachment d)
  /\ dsa_texture (depthAttachment d)
     = Resource.m_texture <$> ds_texture (depth_stencil_attachment desc).
Proof.
  intros d k.
  assert (Hk : (k <= 8)%nat).
  { subst k. etransitivity; [apply leading_textures_length|].
    unfold color_slots. rewrite length_map, length_seq. lia. }
  assert (Hlook : colorAttachments d !! j
     = (if decide (j < k)%nat
        then descriptor_at desc j <$> texture (color_attachment_at desc j)
        else None)).
  { subst d k. unfold render_pass_descriptor.
    pose proof (color_attachments_loop_lookup desc 8 0 ∅ 0 0 j) as Hloop.
    destruct (loop' desc 8 0 (∅, 0, 0)) as [[atts wd] ht]. simpl in Hloop.
    destruct (ds_texture (depth_stencil_attachment desc)); simpl;
      rewrite Hloop;
      destruct (decide (0 <= j < _)%nat) as [Hin|Hout];
      destruct (decide (j < _)%nat) as [Hlt|Hge];
      try reflexivity; try lia; apply lookup_empty. }
  split_and!.
  - exact Hk.
  - intros Hlt.
    apply (proj2 (leading_textures_slots desc 8 0 k)); [reflexivity|lia].
  - exact Hlook.
  - intros Hj. rewrite Hlook. destruct (decide _) as [_|Hno]; [|lia].
    destruct (proj1 (leading_textures_slots desc 8 0 j) ltac:(subst k; lia))
      as [tex ->].
    simpl. eauto.
  - subst d. unfold render_pass_descriptor.
    destruct (loop' desc 8 0 (∅, 0, 0)) as [[atts wd] ht].
    destruct (ds_texture (depth_stencil_attachment desc)); reflexivity.
  - subst d. unfold render_pass_descriptor.
    destruct (loop' desc 8 0 (∅, 0, 0)) as [[atts wd] ht].
    destruct (ds_texture (depth_stencil_attachment desc)); reflexivity.
  - subst d. unfold render_pass_descriptor.
    destruct (loop' desc 8 0 (∅, 0, 0)) as [[atts wd] ht].
    destruct (ds_texture (depth_stencil_attachment desc)); reflexivity.
  - subst d. unfold render_pass_descriptor.
    destruct (loop' desc 8 0 (∅, 0, 0)) as [[atts wd] ht].
    destruct (ds_texture (depth_stencil_attachment desc)); reflexivity.
Qed.

End RenderPass.

(** A texture in slot 2 behind an empty slot 1 is not attached. *)
Example attachment_behind_gap :
  colorAttachments
    (render_pass_descriptor sample_load_action sample_store_action
       (render_pass_desc_of
          [color_attachment_of (sample_texture 20 64 64);
           null_color_attachment;
           color_attachment_of (sample_texture 21 64 64)]
          null_depth_stencil_attachment)) !! 2%nat
  = None.
Proof. reflexivity. Qed.

(** *** Sample runs *)

Lemma call_transition_witness :
  (in_scope EndRenderPass RenderPass = false ->
   exists msg, sample_run EndRenderPass in_render_pass = AssertFail msg)
  /\ (forall cb',
        sample_run EndRenderPass in_render_pass = Returns cb' ->
        in_scope EndRenderPass RenderPass = true
        /\ recording_state cb' = Some Idle).
Proof.
  apply (call_transition sample_renderCommandEncoder
           sample_computeCommandEncoder sample_blitCommandEncoder
           sample_load_action sample_store_action sample_encode_index_type
           sample_vertex_buffer_location EndRenderPass in_render_pass
           RenderPass).
  reflexivity.
Defined.

Lemma pass_round_trip_witness :
  exists cb1 cb2,
    begin_compute_pass sample_computeCommandEncoder idle_command_buffer
    = Returns cb1
    /\ recording_state cb1 = Some ComputePass
    /\ encoded cb1 = encoded idle_command_buffer ++ [computeCommandEncoder]
    /\ end_compute_pass cb1 = Returns cb2
    /\ recording_state cb2 = Some Idle
    /\ encoded cb2 = encoded cb1 ++ [endEncoding 12]
    /\ m_objs cb2 = m_objs idle_command_buffer.
Proof.
  apply (pass_round_trip sample_renderCommandEncoder
           sample_computeCommandEncoder sample_blitCommandEncoder
           sample_load_action sample_store_action BeginCompute
           idle_command_buffer 12).
  - reflexivity.
  - reflexivity.
Defined.

Lemma run_all_invariants_witness :
  (exists s', recording_state after_sample_copy = Some s')
  /\ (exists added,
        encoded after_sample_copy = encoded idle_command_buffer ++ added)
  /\ m_objs after_sample_copy
     = m_objs idle_command_buffer ++ attached sample_copy_calls
  /\ m_buffer after_sample_copy = m_buffer idle_command_buffer.
Proof.
  apply (run_all_invariants sample_renderCommandEncoder
           sample_computeCommandEncoder sample_blitCommandEncoder
           sample_load_action sample_store_action sample_encode_index_type
           sample_vertex_buffer_location sample_copy_calls
           idle_command_buffer after_sample_copy Idle).
  - reflexivity.
  - reflexivity.
Defined.

Lemma set_index_buffer_then_draw_witness :
  exists cb',
    sample_run_all
      [SetIndexBuffer (index_view Resource.r32_uint);
       DrawIndexedInstanced 6 1 10 0 0] in_render_pass
    = Returns cb'
    /\ encoded cb'
       = encoded in_render_pass
         ++ [drawIndexedPrimitives (m_primitive_type in_render_pass) 6
               (sample_encode_index_type Resource.r32_uint)
               (Resource.m_buffer sample_index_buffer)
               (wrap32 (10 * index_stride
                               (sample_encode_index_type Resource.r32_uint)))
               1 0 0]
    /\ recording_state cb' = Some RenderPass.
Proof.
  apply (set_index_buffer_then_draw sample_renderCommandEncoder
           sample_computeCommandEncoder sample_blitCommandEncoder
           sample_load_action sample_store_action sample_encode_index_type
           sample_vertex_buffer_location in_render_pass
           (index_view Resource.r32_uint) sample_index_buffer 6 1 10 0 0).
  - reflexivity.
  - reflexivity.
Defined.

Lemma index_buffer_view_persists_witness :
  m_index_buffer_view after_sample_copy
  = index_buffer_after sample_copy_calls
      (m_index_buffer_view idle_command_buffer).
Proof.
  apply (index_buffer_view_persists sample_renderCommandEncoder
           sample_computeCommandEncoder sample_blitCommandEncoder
           sample_load_action sample_store_action sample_encode_index_type
           sample_vertex_buffer_location sample_copy_calls
           idle_command_buffer after_sample_copy).
  reflexivity.
Defined.

Example sample_copy_encoded :
  encoded after_sample_copy
  = [ blitCommandEncoder;
      copyFromBuffer 6 16 5 0 32;
      copyFromBuffer 6 0 5 0 64;
      endEncoding 13 ]
  /\ m_objs after_sample_copy = [5; 6]
  /\ recording_state after_sample_copy = Some Idle.
Proof. split_and!; reflexivity. Qed.

End CommandBufferCallsFacts.

(** ** Metal descriptor set: what a set keeps *)
Module DescriptorSetInitFacts.
Import Runtime RuntimeFacts DescriptorSet DescriptorSetFacts DescriptorSetInit.

(** *** Stores *)

Lemma capacity_set_resource (index : Z) (res : handle)
    (b : DescriptorSetBinding) :
  capacity (set_resource index res b) = capacity b.
Proof. unfold capacity, set_resource. simpl. rewrite length_insert. reflexivity. Qed.

Lemma shape_store_resource (bi : nat) (index : Z) (res : handle)
    (ds : DescriptorSet) :
  shape (store_resource bi index res ds) = shape ds.
Proof.
  unfold shape, store_resource. simpl. f_equal.
  generalize (m_bindings ds). intros bs. revert bi.
  induction bs as [|b bs IH]; intros [|bi]; simpl; try reflexivity.
  - rewrite capacity_set_resource. reflexivity.
  - f_equal. apply IH.
Qed.

Lemma resource_at_store_eq (bi : nat) (index : Z) (res : handle)
    (ds : DescriptorSet) (b : DescriptorSetBinding) :
  m_bindings ds !! bi = Some b ->
  (Z.to_nat index < length (m_resources b))%nat ->
  resource_at (store_resource bi index res ds) bi (Z.to_nat index)
  = Some (Some res).
Proof.
  intros Hb Hlt. unfold resource_at, store_resource. simpl.
  rewrite list_lookup_alter_eq, Hb. simpl.
  apply list_lookup_insert_eq. exact Hlt.
Qed.

Lemma resource_at_store_ne (bi bi' : nat) (index : Z) (index' : nat)
    (res : handle) (ds : DescriptorSet) :
  (bi' ≠ bi \/ index' ≠ Z.to_nat index) ->
  resource_at (store_resource bi index res ds) bi' index'
  = resource_at ds bi' index'.
Proof.
  intros Hne. unfold resource_at, store_resource. simpl.
  destruct (decide (bi' = bi)) as [->|Hbi].
  - rewrite list_lookup_alter_eq.
    destruct (m_bindings ds !! bi) as [b|]; simpl; [|reflexivity].
    apply list_lookup_insert_ne. destruct Hne; congruence.
  - rewrite list_lookup_alter_ne by congruence. reflexivity.
Qed.


(** *** Distinct sampler keys *)

Lemma wrap32_window (a i j : Z) :
  wrap32 (a + wrap32 i) = wrap32 (a + wrap32 j) ->
  - 2 ^ 32 < i - j < 2 ^ 32 -> i = j.
Proof.
  unfold wrap32. rewrite !Zplus_mod_idemp_r. intros Heq Hwin.
  pose proof (Z.div_mod (a + i) (2 ^ 32) ltac:(lia)) as Hi.
  pose proof (Z.div_mod (a + j) (2 ^ 32) ltac:(lia)) as Hj.
  rewrite Heq in Hi.
  assert (Hd : i - j = 2 ^ 32 * ((a + i) / 2 ^ 32 - (a + j) / 2 ^ 32)) by lia.
  nia.
Qed.

Lemma wrap64_nonneg (z : Z) : 0 <= wrap64 z.
Proof. unfold wrap64. apply Z.mod_pos_bound. lia. Qed.

(** Distinct rounds of a loop store to distinct resource indices. *)
Lemma resource_index_window (a i j : Z) :
  Z.to_nat (wrap64 (a + i)) = Z.to_nat (wrap64 (a + j)) ->
  - 2 ^ 64 < i - j < 2 ^ 64 -> i = j.
Proof.
  intros Heq Hwin. apply (wrap64_window a); [|exact Hwin].
  pose proof (wrap64_nonneg (a + i)). pose proof (wrap64_nonneg (a + j)). lia.
Qed.

Section Properties.

Variable bits_per_pixel : Resource.Format -> Z.
Variable validate_texture_view_desc :
  Resource.Texture -> TextureViewDesc -> TextureViewDesc.
Variable require_view_object : Resource.Texture -> TextureViewDesc -> bool.
Variable encode_min_mag_filter : Z -> Z.
Variable encode_mip_filter : Z -> Z.
Variable encode_compare_function : Z -> Z.
Variable encode_address_mode : Z -> Z.
Variable CompareFunctionNever : Z.
Variable get_texture_view : Resource.Texture -> TextureViewDesc -> R Z.
Variable newSamplerState : MTLSamplerDescriptor -> option MTLSamplerState.

Local Abbreviation write_texture_views' :=
  (write_texture_views validate_texture_view_desc require_view_object
     get_texture_view).
Local Abbreviation sampler_descriptor' :=
  (sampler_descriptor encode_min_mag_filter encode_mip_filter
     encode_compare_function encode_address_mode CompareFunctionNever).
Local Abbreviation write_samplers' :=
  (write_samplers encode_min_mag_filter encode_mip_filter
     encode_compare_function encode_address_mode CompareFunctionNever
     newSamplerState).
Local Abbreviation write_descriptors' :=
  (write_descriptors bits_per_pixel validate_texture_view_desc
     require_view_object encode_min_mag_filter encode_mip_filter
     encode_compare_function encode_address_mode CompareFunctionNever
     get_texture_view newSamplerState).
Local Abbreviation update_descriptors' :=
  (update_descriptors bits_per_pixel validate_texture_view_desc
     require_view_object encode_min_mag_filter encode_mip_filter
     encode_compare_function encode_address_mode CompareFunctionNever
     get_texture_view newSamplerState).

Local Abbreviation texture_view_id' :=
  (texture_view_id validate_texture_view_desc require_view_object
     get_texture_view).

(** *** The shape of a set is never written *)

Lemma write_buffer_views_shape f bi ao write i views ds :
  shape (write_buffer_views f bi ao write i views ds) = shape ds.
Proof.
  revert i ds. induction views as [|v vs IH]; intros i ds; simpl.
  - reflexivity.
  - rewrite IH, shape_store_resource. reflexivity.
Qed.

Lemma write_texture_views_shape bi ao write i views ds :
  shape (write_texture_views' bi ao write i views ds).1 = shape ds.
Proof.
  revert i ds. induction views as [|v vs IH]; intros i ds; simpl.
  - reflexivity.
  - destruct (if require_view_object _ _ then _ else _); simpl.
    + rewrite IH, shape_store_resource. reflexivity.
    + reflexivity.
Qed.

Lemma write_samplers_shape ao write i views ds :
  shape (write_samplers' ao write i views ds).1 = shape ds.
Proof.
  revert i ds. induction views as [|v vs IH]; intros i ds; simpl.
  - reflexivity.
  - destruct (newSamplerState _); simpl.
    + rewrite IH. reflexivity.
    + reflexivity.
Qed.

Lemma write_descriptors_shape bi write ds :
  shape (write_descriptors' bi write ds).1 = shape ds.
Proof.
  unfold write_descriptors. destruct (type write); simpl;
    auto using write_buffer_views_shape, write_texture_views_shape,
      write_samplers_shape.
Qed.

(** X7.  [update_descriptors] never changes the shape of a set: whatever
    the batch and whether it succeeds or fails, the layout, the argument
    buffer, the number of bindings, and each binding's number of
    descriptors, usage mask and stage mask are as before. *)
Theorem update_descriptors_shape (writes : list WriteDescriptorSet)
    (ds : DescriptorSet) :
  shape (update_descriptors' ds writes).1 = shape ds.
Proof.
  revert ds. induction writes as [|w ws IH]; intros ds; simpl.
  - reflexivity.
  - destruct (decide _); [reflexivity|].
    pose proof (write_descriptors_shape
                  (find_binding_index (layout_bindings (m_layout ds))
                     (binding_slot w) 0) w ds) as Hshape.
    destruct (write_descriptors' _ w ds) as [ds1 [[]|e]]; simpl in *.
    + rewrite IH. exact Hshape.
    + exact Hshape.
Qed.

(** *** Splitting off the last write of a batch *)

Lemma update_descriptors_snoc pre write ds ds2 :
  update_descriptors' ds (pre ++ [write]) = (ds2, ok tt) ->
  let binding_index :=
    find_binding_index (layout_bindings (m_layout ds)) (binding_slot write) 0 in
  exists ds1,
    update_descriptors' ds pre = (ds1, ok tt)
    /\ shape ds1 = shape ds
    /\ binding_index ≠ length (layout_bindings (m_layout ds))
    /\ write_descriptors' binding_index write ds1 = (ds2, ok tt).
Proof.
  revert ds. induction pre as [|w ws IH]; intros ds Hrun; simpl in *.
  - destruct (decide _) as [|Hres]; [discriminate|].
    destruct (write_descriptors' _ write ds) as [ds' [[]|e]] eqn:Hw;
      [|discriminate].
    injection Hrun as <-. exists ds. split_and!; auto.
  - destruct (decide _) as [|Hres]; [discriminate|].
    pose proof (write_descriptors_shape
                  (find_binding_index (layout_bindings (m_layout ds))
                     (binding_slot w) 0) w ds) as Hshape.
    destruct (write_descriptors' _ w ds) as [ds' [[]|e]] eqn:Hw;
      [|discriminate].
    simpl in Hshape.
    destruct (IH ds' Hrun) as (ds1 & Hpre & Hs1 & Hres1 & Hlast).
    assert (Hlay : m_layout ds' = m_layout ds) by (injection Hshape; auto).
    rewrite Hlay in Hres1, Hlast.
    exists ds1. split_and!; auto. congruence.
Qed.

(** *** What the loops leave in the bindings, the samplers and the buffer *)

Lemma shape_binding (ds ds' : DescriptorSet) (bi : nat)
    (b : DescriptorSetBinding) :
  shape ds' = shape ds ->
  m_bindings ds !! bi = Some b ->
  exists b', m_bindings ds' !! bi = Some b'
             /\ length (m_resources b') = length (m_resources b).
Proof.
  unfold shape. intros [= _ _ Hmap] Hb.
  assert (Hc : map capacity (m_bindings ds') !! bi = Some (capacity b)).
  { rewrite Hmap. change map with (@fmap list _). rewrite list_lookup_fmap, Hb.
    reflexivity. }
  change map with (@fmap list _) in Hc. rewrite list_lookup_fmap in Hc.
  destruct (m_bindings ds' !! bi) as [b'|]; [|discriminate].
  exists b'. split; [reflexivity|].
  simpl in Hc. unfold capacity in Hc. congruence.
Qed.

Lemma write_buffer_views_resource_other f bi ao write views :
  forall i ds bi' index,
    (forall j, (i <= j < i + length views)%nat ->
       bi' ≠ bi
       \/ index ≠ Z.to_nat (wrap64 (first_array_index write + Z.of_nat j))) ->
    resource_at (write_buffer_views f bi ao write i views ds) bi' index
    = resource_at ds bi' index.
Proof.
  induction views as [|v vs IH]; intros i ds bi' index Hfresh; simpl.
  - reflexivity.
  - rewrite IH.
    + rewrite resource_at_store_ne; [reflexivity|].
      apply Hfresh. simpl. lia.
    + intros j Hj. apply Hfresh. simpl. lia.
Qed.

Lemma write_buffer_views_resource f bi ao write views :
  forall i ds k view b,
    Z.of_nat (length views) <= 2 ^ 64 ->
    views !! k = Some view ->
    m_bindings ds !! bi = Some b ->
    (Z.to_nat (wrap64 (first_array_index write + Z.of_nat (i + k)))
     < length (m_resources b))%nat ->
    resource_at (write_buffer_views f bi ao write i views ds) bi
      (Z.to_nat (wrap64 (first_array_index write + Z.of_nat (i + k))))
    = Some (Some (Resource.m_buffer (buffer view))).
Proof.
  induction views as [|v vs IH]; intros i ds k view b Hlen Hk Hb Hcap.
  - discriminate.
  - simpl in Hlen. destruct k as [|k]; simpl in Hk.
    + injection Hk as ->. simpl.
      replace (i + 0)%nat with i in * by lia.
      rewrite write_buffer_views_resource_other.
      * apply (resource_at_store_eq _ _ _ _ b); [exact Hb|exact Hcap].
      * intros j Hj. right. intros Heq.
        apply resource_index_window in Heq; lia.
    + simpl. replace (i + S k)%nat with (S i + k)%nat in * by lia.
      set (ds' := store_resource _ _ _ _).
      destruct (shape_binding ds ds' bi b) as (b' & Hb' & Hlen').
      { subst ds'. rewrite shape_store_resource. reflexivity. }
      { exact Hb. }
      apply (IH (S i) ds' k view b'); [lia|exact Hk|exact Hb'|].
      rewrite Hlen'. exact Hcap.
Qed.

Lemma write_texture_views_other bi ao write views :
  forall i ds,
    (forall slot,
       (forall j, (i <= j < i + length views)%nat ->
                  wrap64 (ao + Z.of_nat j) ≠ slot) ->
       data (write_texture_views' bi ao write i views ds).1 !! slot
       = data ds !! slot)
    /\ (forall bi' index,
          (forall j, (i <= j < i + length views)%nat ->
             bi' ≠ bi
             \/ index
                ≠ Z.to_nat (wrap64 (first_array_index write + Z.of_nat j))) ->
          resource_at (write_texture_views' bi ao write i views ds).1 bi' index
          = resource_at ds bi' index).
Proof.
  induction views as [|v vs IH]; intros i ds; simpl.
  - split; reflexivity.
  - destruct (if require_view_object _ _ then _ else _) as [id|e]; simpl.
    + destruct (IH (S i)
                  (store_resource bi
                     (wrap64 (first_array_index write + Z.of_nat i))
                     (Resource.m_texture (texture v))
                     (store_data (wrap64 (ao + Z.of_nat i)) id ds)))
        as [Hdata Hres].
      split.
      * intros slot Hfresh. rewrite Hdata.
        -- simpl. apply lookup_insert_ne. apply Hfresh. lia.
        -- intros j Hj. apply Hfresh. lia.
      * intros bi' index Hfresh. rewrite Hres.
        -- rewrite resource_at_store_ne; [reflexivity|]. apply Hfresh. lia.
        -- intros j Hj. apply Hfresh. lia.
    + split; reflexivity.
Qed.

Lemma write_texture_views_written bi ao write views :
  forall i ds ds' k v,
    Z.of_nat (length views) <= 2 ^ 64 ->
    write_texture_views' bi ao write i views ds = (ds', ok tt) ->
    views !! k = Some v ->
    exists id,
      texture_view_id' v = ok id
      /\ data ds' !! wrap64 (ao + Z.of_nat (i + k)) = Some id
      /\ (forall b,
            m_bindings ds !! bi = Some b ->
            (Z.to_nat (wrap64 (first_array_index write + Z.of_nat (i + k)))
             < length (m_resources b))%nat ->
            resource_at ds' bi
              (Z.to_nat (wrap64 (first_array_index write + Z.of_nat (i + k))))
            = Some (Some (Resource.m_texture (texture v)))).
Proof.
  induction views as [|v0 vs IH]; intros i ds ds' k v Hlen Hrun Hk.
  - discriminate.
  - simpl in Hlen, Hrun.
    fold (texture_view_id' v0) in Hrun. unfold texture_view_id in IH.
    destruct (texture_view_id' v0) as [id0|e] eqn:Hid0; [|discriminate].
    set (ds1 := store_resource bi
                  (wrap64 (first_array_index write + Z.of_nat i))
                  (Resource.m_texture (texture v0))
                  (store_data (wrap64 (ao + Z.of_nat i)) id0 ds)) in *.
    destruct k as [|k]; simpl in Hk.
    + injection Hk as ->. exists id0.
      replace (i + 0)%nat with i by lia.
      destruct (write_texture_views_other bi ao write vs (S i) ds1)
        as [Hdata Hres].
      rewrite Hrun in Hdata, Hres. simpl in Hdata, Hres.
      split_and!.
      * exact Hid0.
      * rewrite Hdata.
        -- subst ds1. simpl. apply lookup_insert_eq.
        -- intros j Hj Heq. apply wrap64_window in Heq; lia.
      * intros b Hb Hcap. rewrite Hres.
        -- subst ds1. apply (resource_at_store_eq _ _ _ _ b); assumption.
        -- intros j Hj. right. intros Heq.
           apply resource_index_window in Heq; lia.
    + replace (i + S k)%nat with (S i + k)%nat by lia.
      destruct (IH (S i) ds1 ds' k v ltac:(lia) Hrun Hk)
        as (id & Hid & Hdata & Hres).
      exists id. split_and!; [exact Hid|exact Hdata|].
      intros b Hb Hcap.
      destruct (shape_binding ds ds1 bi b) as (b' & Hb' & Hlen').
      { subst ds1. rewrite shape_store_resource. reflexivity. }
      { exact Hb. }
      apply (Hres b' Hb'). rewrite Hlen'. exact Hcap.
Qed.

Lemma write_samplers_other ao write views :
  forall i ds,
    (forall slot,
       (forall j, (i <= j < i + length views)%nat ->
                  wrap64 (ao + Z.of_nat j) ≠ slot) ->
       data (write_samplers' ao write i views ds).1 !! slot = data ds !! slot)
    /\ (forall key,
          (forall j, (i <= j < i + length views)%nat ->
                     sampler_key write j ≠ key) ->
          m_samplers (write_samplers' ao write i views ds).1 !! key
          = m_samplers ds !! key).
Proof.
  induction views as [|v vs IH]; intros i ds; simpl.
  - split; reflexivity.
  - destruct (newSamplerState _) as [s|]; simpl.
    + destruct (IH (S i)
                  (store_data (wrap64 (ao + Z.of_nat i))
                     (sampler_gpuResourceID s)
                     (store_sampler (sampler_key write i) s ds)))
        as [Hdata Hkeys].
      split.
      * intros slot Hfresh. rewrite Hdata.
        -- simpl. apply lookup_insert_ne. apply Hfresh. lia.
        -- intros j Hj. apply Hfresh. lia.
      * intros key Hfresh. rewrite Hkeys.
        -- simpl. apply lookup_insert_ne. apply Hfresh. lia.
        -- intros j Hj. apply Hfresh. lia.
    + split; reflexivity.
Qed.

Lemma sampler_key_window (write : WriteDescriptorSet) (i j : nat) :
  sampler_key write i = sampler_key write j ->
  Z.of_nat i - Z.of_nat j < 2 ^ 32 -> Z.of_nat j - Z.of_nat i < 2 ^ 32 ->
  i = j.
Proof.
  unfold sampler_key. intros Heq H1 H2.
  apply wrap32_window in Heq; lia.
Qed.

Lemma write_samplers_written ao write views :
  forall i ds ds' k view,
    Z.of_nat (length views) <= 2 ^ 32 ->
    write_samplers' ao write i views ds = (ds', ok tt) ->
    views !! k = Some view ->
    exists s,
      newSamplerState (sampler_descriptor' view) = Some s
      /\ m_samplers ds' !! sampler_key write (i + k) = Some s
      /\ data ds' !! wrap64 (ao + Z.of_nat (i + k))
         = Some (sampler_gpuResourceID s).
Proof.
  induction views as [|v0 vs IH]; intros i ds ds' k view Hlen Hrun Hk.
  - discriminate.
  - simpl in Hlen, Hrun.
    destruct (newSamplerState (sampler_descriptor' v0)) as [s0|] eqn:Hs0;
      [|discriminate].
    fold (sampler_key write i) in Hrun.
    set (ds1 := store_data (wrap64 (ao + Z.of_nat i))
                  (sampler_gpuResourceID s0)
                  (store_sampler (sampler_key write i) s0 ds)) in *.
    destruct k as [|k]; simpl in Hk.
    + injection Hk as ->. exists s0.
      replace (i + 0)%nat with i by lia.
      destruct (write_samplers_other ao write vs (S i) ds1) as [Hdata Hkeys].
      rewrite Hrun in Hdata, Hkeys. simpl in Hdata, Hkeys.
      split_and!.
      * exact Hs0.
      * rewrite Hkeys.
        -- subst ds1. simpl. apply lookup_insert_eq.
        -- intros j Hj Heq. apply sampler_key_window in Heq; lia.
      * rewrite Hdata.
        -- subst ds1. simpl. apply lookup_insert_eq.
        -- intros j Hj Heq. apply wrap64_window in Heq; lia.
    + replace (i + S k)%nat with (S i + k)%nat by lia.
      apply (IH (S i) ds1 ds' k view); [lia|exact Hrun|exact Hk].
Qed.

Lemma buffer_write_resource (bi : nat) (write : WriteDescriptorSet)
    (ds1 ds2 : DescriptorSet) (k : nat) (view : BufferViewDesc)
    (b1 : DescriptorSetBinding) :
  write_descriptors' bi write ds1 = (ds2, ok tt) ->
  type write ∈ [uniform_buffer_view; read_buffer_view;
                read_write_buffer_view] ->
  Z.of_nat (length (buffer_views write)) <= 2 ^ 64 ->
  buffer_views write !! k = Some view ->
  m_bindings ds1 !! bi = Some b1 ->
  (Z.to_nat (wrap64 (first_array_index write + Z.of_nat k))
   < length (m_resources b1))%nat ->
  resource_at ds2 bi
    (Z.to_nat (wrap64 (first_array_index write + Z.of_nat k)))
  = Some (Some (Resource.m_buffer (buffer view))).
Proof.
  intros Hlast Htype Hlen Hview Hb1 Hcap.
  apply list_elem_of_In in Htype. simpl in Htype.
  unfold write_descriptors in Hlast.
  destruct (type write) eqn:Hty; try (exfalso; intuition discriminate);
    injection Hlast as <-;
    exact (write_buffer_views_resource _ _ _ write (buffer_views write)
             0 ds1 k view b1 Hlen Hview Hb1 Hcap).
Qed.

(** X8.  A buffer write retains its buffers.  When a batch that ends in a
    buffer write has gone through, the binding the write resolved to holds,
    at the array index [first_array_index + k], the Metal buffer of the
    write's [k]-th view, provided the binding has room for that index. *)
Theorem buffer_write_retains (ds ds2 : DescriptorSet)
    (pre : list WriteDescriptorSet) (write : WriteDescriptorSet)
    (k : nat) (view : BufferViewDesc) (b : DescriptorSetBinding) :
  let binding_index :=
    find_binding_index (layout_bindings (m_layout ds)) (binding_slot write) 0 in
  let index :=
    Z.to_nat (wrap64 (first_array_index write + Z.of_nat k)) in
  update_descriptors' ds (pre ++ [write]) = (ds2, ok tt) ->
  type write ∈ [uniform_buffer_view; read_buffer_view;
                read_write_buffer_view] ->
  Z.of_nat (length (buffer_views write)) <= 2 ^ 64 ->
  buffer_views write !! k = Some view ->
  m_bindings ds !! binding_index = Some b ->
  (index < length (m_resources b))%nat ->
  resource_at ds2 binding_index index
  = Some (Some (Resource.m_buffer (buffer view))).
Proof.
  intros binding_index index Hrun Htype Hlen Hview Hb Hcap.
  destruct (update_descriptors_snoc pre write ds ds2 Hrun)
    as (ds1 & _ & Hshape & _ & Hlast).
  fold binding_index in Hlast.
  destruct (shape_binding ds ds1 binding_index b Hshape Hb)
    as (b1 & Hb1 & Hlen1).
  rewrite <- Hlen1 in Hcap.
  exact (buffer_write_resource binding_index write ds1 ds2 k view b1
           Hlast Htype Hlen Hview Hb1 Hcap).
Qed.

(** X9.  A sampler write.  When a batch that ends in a sampler write has
    gone through, Metal has created a sampler for the write's [k]-th
    description; the set keeps it under the key
    [binding_slot + first_array_index + k], and the argument slot of the
    description holds its resource id. *)
Theorem sampler_write_kept (ds ds2 : DescriptorSet)
    (pre : list WriteDescriptorSet) (write : WriteDescriptorSet)
    (k : nat) (view : SamplerDesc) :
  let binding_index :=
    find_binding_index (layout_bindings (m_layout ds)) (binding_slot write) 0 in
  update_descriptors' ds (pre ++ [write]) = (ds2, ok tt) ->
  type write = sampler ->
  Z.of_nat (length (samplers write)) <= 2 ^ 32 ->
  samplers write !! k = Some view ->
  exists s,
    newSamplerState (sampler_descriptor' view) = Some s
    /\ m_samplers ds2 !! sampler_key write k = Some s
    /\ data ds2 !! wrap64 (argument_offset_of (m_layout ds) binding_index write
                           + Z.of_nat k)
       = Some (sampler_gpuResourceID s).
Proof.
  intros binding_index Hrun Htype Hlen Hview.
  destruct (update_descriptors_snoc pre write ds ds2 Hrun)
    as (ds1 & _ & Hshape & _ & Hlast).
  fold binding_index in Hlast.
  assert (Hlay : m_layout ds1 = m_layout ds) by (injection Hshape; auto).
  unfold write_descriptors in Hlast. rewrite Htype, Hlay in Hlast.
  exact (write_samplers_written _ write (samplers write) 0 ds1 ds2 k view
           Hlen Hlast Hview).
Qed.

(** X10.  A texture write.  When a batch that ends in a texture write has
    gone through, the argument slot of the write's [k]-th view holds the
    resource id of a view object when the view needs one and that of the
    texture itself otherwise; what the binding retains at the array index
    [first_array_index + k], if it has room for it, is the texture in both
    cases. *)
Theorem texture_write_id (ds ds2 : DescriptorSet)
    (pre : list WriteDescriptorSet) (write : WriteDescriptorSet)
    (k : nat) (v : TextureViewDesc) :
  let binding_index :=
    find_binding_index (layout_bindings (m_layout ds)) (binding_slot write) 0 in
  let index :=
    Z.to_nat (wrap64 (first_array_index write + Z.of_nat k)) in
  update_descriptors' ds (pre ++ [write]) = (ds2, ok tt) ->
  type write ∈ [read_texture_view; read_write_texture_view] ->
  Z.of_nat (length (texture_views write)) <= 2 ^ 64 ->
  texture_views write !! k = Some v ->
  exists id,
    texture_view_id' v = ok id
    /\ data ds2 !! wrap64 (argument_offset_of (m_layout ds) binding_index write
                           + Z.of_nat k)
       = Some id
    /\ (forall b,
          m_bindings ds !! binding_index = Some b ->
          (index < length (m_resources b))%nat ->
          resource_at ds2 binding_index index
          = Some (Some (Resource.m_texture (texture v)))).
Proof.
  intros binding_index index Hrun Htype Hlen Hview.
  destruct (update_descriptors_snoc pre write ds ds2 Hrun)
    as (ds1 & _ & Hshape & _ & Hlast).
  fold binding_index in Hlast.
  assert (Hlay : m_layout ds1 = m_layout ds) by (injection Hshape; auto).
  apply list_elem_of_In in Htype. simpl in Htype.
  unfold write_descriptors in Hlast. rewrite Hlay in Hlast.
  assert (Hloop : write_texture_views' binding_index
                    (argument_offset_of (m_layout ds) binding_index write)
                    write 0 (texture_views write) ds1 = (ds2, ok tt)).
  { destruct (type write); try (exfalso; intuition discriminate);
      exact Hlast. }
  destruct (write_texture_views_written _ _ write (texture_views write)
              0 ds1 ds2 k v Hlen Hloop Hview) as (id & Hid & Hdata & Hres).
  exists id. split_and!; [exact Hid|exact Hdata|].
  intros b Hb Hcap.
  destruct (shape_binding ds ds1 binding_index b Hshape Hb)
    as (b1 & Hb1 & Hlen1).
  apply (Hres b1 Hb1). rewrite Hlen1. exact Hcap.
Qed.

Lemma sampler_key_sum (write : WriteDescriptorSet) (k : nat) :
  sampler_key write k
  = wrap32 (binding_slot write + first_array_index write + Z.of_nat k).
Proof.
  unfold sampler_key, wrap32.
  rewrite <- Zplus_mod. reflexivity.
Qed.

(** X13.  Samplers are kept by the sum of slot, array index and position.
    Two sampler descriptions whose sums agree share one key of
    [m_samplers], whichever bindings they belong to: after a sampler write
    the set keeps the sampler made for the first description under that
    key, and after a later sampler write whose description has the same
    sum it keeps the sampler made for the second one there instead. *)
Theorem sampler_key_shared (ds ds1 ds2 : DescriptorSet)
    (pre : list WriteDescriptorSet) (w1 w2 : WriteDescriptorSet)
    (k1 k2 : nat) (v1 v2 : SamplerDesc) :
  update_descriptors' ds (pre ++ [w1]) = (ds1, ok tt) ->
  update_descriptors' ds1 [w2] = (ds2, ok tt) ->
  type w1 = sampler -> type w2 = sampler ->
  Z.of_nat (length (samplers w1)) <= 2 ^ 32 ->
  Z.of_nat (length (samplers w2)) <= 2 ^ 32 ->
  samplers w1 !! k1 = Some v1 -> samplers w2 !! k2 = Some v2 ->
  binding_slot w1 + first_array_index w1 + Z.of_nat k1
  = binding_slot w2 + first_array_index w2 + Z.of_nat k2 ->
  exists s1 s2,
    newSamplerState (sampler_descriptor' v1) = Some s1
    /\ newSamplerState (sampler_descriptor' v2) = Some s2
    /\ m_samplers ds1 !! sampler_key w1 k1 = Some s1
    /\ m_samplers ds2 !! sampler_key w1 k1 = Some s2.
Proof.
  intros Hrun1 Hrun2 Ht1 Ht2 Hlen1 Hlen2 Hv1 Hv2 Hsum.
  destruct (update_descriptors_snoc pre w1 ds ds1 Hrun1)
    as (ds0 & _ & _ & _ & Hlast1).
  destruct (update_descriptors_snoc [] w2 ds1 ds2 Hrun2)
    as (ds1' & Hnil & _ & _ & Hlast2).
  injection Hnil as <-.
  unfold write_descriptors in Hlast1, Hlast2. rewrite Ht1 in Hlast1.
  rewrite Ht2 in Hlast2.
  destruct (write_samplers_written _ w1 (samplers w1) 0 ds0 ds1 k1 v1
              Hlen1 Hlast1 Hv1) as (s1 & Hs1 & Hkey1 & _).
  destruct (write_samplers_written _ w2 (samplers w2) 0 ds1 ds2 k2 v2
              Hlen2 Hlast2 Hv2) as (s2 & Hs2 & Hkey2 & _).
  exists s1, s2. split_and!; [exact Hs1|exact Hs2|exact Hkey1|].
  simpl in Hkey2. rewrite sampler_key_sum in Hkey2 |- *.
  rewrite Hsum. exact Hkey2.
Qed.

End Properties.

(** *** A set as [init] leaves it *)

Section Init.

Variable variable_descriptors : Z.
Variable vertex : Z.
Variable pixel : Z.
Variable upload_resource_options : Z.
Variable fresh_usages : Z.
Variable fresh_render_stages : Z.
Variable newBuffer : Z -> Z -> option handle.

Variable bits_per_pixel : Resource.Format -> Z.
Variable validate_texture_view_desc :
  Resource.Texture -> TextureViewDesc -> TextureViewDesc.
Variable require_view_object : Resource.Texture -> TextureViewDesc -> bool.
Variable encode_min_mag_filter : Z -> Z.
Variable encode_mip_filter : Z -> Z.
Variable encode_compare_function : Z -> Z.
Variable encode_address_mode : Z -> Z.
Variable CompareFunctionNever : Z.
Variable get_texture_view : Resource.Texture -> TextureViewDesc -> R Z.
Variable newSamplerState : MTLSamplerDescriptor -> option MTLSamplerState.

Local Abbreviation init' :=
  (init variable_descriptors vertex pixel upload_resource_options
     fresh_usages fresh_render_stages newBuffer).
Local Abbreviation init_binding' :=
  (init_binding vertex pixel fresh_usages fresh_render_stages).
Local Abbreviation update_descriptors' :=
  (update_descriptors bits_per_pixel validate_texture_view_desc
     require_view_object encode_min_mag_filter encode_mip_filter
     encode_compare_function encode_address_mode CompareFunctionNever
     get_texture_view newSamplerState).

Lemma init_binding_resources (src : DescriptorSetLayoutBinding) :
  m_resources (init_binding' src)
  = if decide (layout_type src = sampler) then []
    else replicate (Z.to_nat (num_descs src)) None.
Proof.
  unfold init_binding. destruct (layout_type src); reflexivity.
Qed.

(** X11.  The size of the argument buffer.  [init] asks Metal for a buffer
    of eight bytes per argument slot, the slots being those of the layout
    and, for a layout with variable descriptors, the variable ones of the
    description on top; a set it returns has that buffer, the layout of
    the description, and one binding per binding record of the layout. *)
Theorem init_argument_buffer (desc : DescriptorSetDesc) (ds : DescriptorSet) :
  0 <= m_num_arguments (layout desc) ->
  0 <= num_variable_descriptors desc ->
  8 * (m_num_arguments (layout desc) + num_variable_descriptors desc)
  < 2 ^ 64 ->
  init' desc = ok ds ->
  let slots :=
    m_num_arguments (layout desc)
    + (if ResourceHeap.test_flags (m_flags (layout desc)) variable_descriptors
       then num_variable_descriptors desc else 0) in
  newBuffer (8 * slots) upload_resource_options = Some (m_buffer ds)
  /\ m_layout ds = layout desc
  /\ length (m_bindings ds) = length (layout_bindings (layout desc)).
Proof.
  intros Hn Hv Hfit Hinit slots. unfold init in Hinit.
  assert (Hlen : argument_buffer_length variable_descriptors desc = 8 * slots).
  { subst slots. unfold argument_buffer_length, num_arguments.
    destruct (ResourceHeap.test_flags _ _).
    - rewrite (wrap64_small (_ + _)) by lia. apply wrap64_small. lia.
    - rewrite Z.add_0_r. apply wrap64_small. lia. }
  rewrite Hlen in Hinit.
  destruct (newBuffer (8 * slots) upload_resource_options) as [buf|] eqn:Hbuf;
    [|discriminate].
  injection Hinit as <-. simpl.
  split_and!; try reflexivity. apply length_map.
Qed.

(** X12.  A set just created retains what is written within the layout's
    descriptor counts.  Take a set [init] has returned and a batch that
    goes through on it and ends in a buffer write.  If the binding record
    the write resolves to is not a sampler binding and the write stays
    within the record's descriptor count, the binding holds the Metal
    buffer of the write's [k]-th view at the index
    [first_array_index + k]. *)
Theorem init_then_buffer_write (desc : DescriptorSetDesc)
    (ds ds2 : DescriptorSet) (pre : list WriteDescriptorSet)
    (write : WriteDescriptorSet) (k : nat) (view : BufferViewDesc)
    (src : DescriptorSetLayoutBinding) :
  let binding_index :=
    find_binding_index (layout_bindings (layout desc)) (binding_slot write) 0 in
  init' desc = ok ds ->
  update_descriptors' ds (pre ++ [write]) = (ds2, ok tt) ->
  type write ∈ [uniform_buffer_view; read_buffer_view;
                read_write_buffer_view] ->
  buffer_views write !! k = Some view ->
  layout_bindings (layout desc) !! binding_index = Some src ->
  layout_type src ≠ sampler ->
  0 <= first_array_index write ->
  first_array_index write + Z.of_nat (length (buffer_views write))
  <= num_descs src ->
  num_descs src < 2 ^ 32 ->
  resource_at ds2 binding_index
    (Z.to_nat (first_array_index write + Z.of_nat k))
  = Some (Some (Resource.m_buffer (buffer view))).
Proof.
  intros binding_index Hinit Hrun Htype Hview Hsrc Hkind H0 Hfit Hdescs.
  assert (Hds : m_layout ds = layout desc
                /\ m_bindings ds
                   = init_binding' <$> layout_bindings (layout desc)).
  { unfold init in Hinit. destruct (newBuffer _ _); [|discriminate].
    injection Hinit as <-. split; reflexivity. }
  destruct Hds as [Hlay Hbind].
  assert (Hk : Z.of_nat k < Z.of_nat (length (buffer_views write))).
  { apply lookup_lt_Some in Hview. lia. }
  assert (Hwrap : wrap64 (first_array_index write + Z.of_nat k)
                  = first_array_index write + Z.of_nat k)
    by (apply wrap64_small; lia).
  destruct (update_descriptors_snoc bits_per_pixel validate_texture_view_desc
              require_view_object encode_min_mag_filter encode_mip_filter
              encode_compare_function encode_address_mode
              CompareFunctionNever get_texture_view newSamplerState
              pre write ds ds2 Hrun) as (ds1 & _ & Hshape & _ & Hlast).
  rewrite Hlay in Hlast. fold binding_index in Hlast.
  destruct (shape_binding ds ds1 binding_index (init_binding' src) Hshape)
    as (b1 & Hb1 & Hlen1).
  { rewrite Hbind, list_lookup_fmap, Hsrc. reflexivity. }
  rewrite init_binding_resources in Hlen1.
  destruct (decide (layout_type src = sampler)); [contradiction|].
  rewrite length_replicate in Hlen1.
  rewrite <- Hwrap.
  apply (buffer_write_resource bits_per_pixel validate_texture_view_desc
           require_view_object encode_min_mag_filter encode_mip_filter
           encode_compare_function encode_address_mode
           CompareFunctionNever get_texture_view newSamplerState
           binding_index write ds1 ds2 k view b1);
    [exact Hlast|exact Htype|lia|exact Hview|exact Hb1|].
  rewrite Hwrap, Hlen1. lia.
Qed.

End Init.

(** *** The theorems at the sample sets *)

Lemma buffer_write_retains_witness :
  resource_at
    (sample_update sample_newSamplerState sample_set
       ([uniform_write] ++ [typed_write])).1 1 0
  = Some (Some 41).
Proof.
  apply (buffer_write_retains sample_bits_per_pixel sample_validate
           sample_require_view_object id id id id 0 sample_get_texture_view
           sample_newSamplerState sample_set _ [uniform_write] typed_write
           0%nat typed_view
           {| m_resources := [None]; m_usages := 1; m_render_stages := 1 |}).
  - reflexivity.
  - apply list_elem_of_In. simpl. right. left. reflexivity.
  - first [simpl; lia | vm_compute; lia].
  - reflexivity.
  - reflexivity.
  - first [simpl; lia | vm_compute; lia].
Defined.

Lemma sampler_write_kept_witness :
  exists s,
    sample_newSamplerState (sampler_descriptor id id id id 0 sample_sampler)
    = Some s
    /\ m_samplers
         (sample_update sample_newSamplerState sample_set
            ([uniform_write; typed_write] ++ [sampler_write])).1 !! 2
       = Some s
    /\ data
         (sample_update sample_newSamplerState sample_set
            ([uniform_write; typed_write] ++ [sampler_write])).1 !! 2
       = Some (sampler_gpuResourceID s).
Proof.
  apply (sampler_write_kept sample_bits_per_pixel sample_validate
           sample_require_view_object id id id id 0 sample_get_texture_view
           sample_newSamplerState sample_set _ [uniform_write; typed_write]
           sampler_write 0%nat sample_sampler).
  - reflexivity.
  - reflexivity.
  - first [simpl; lia | vm_compute; lia].
  - reflexivity.
Defined.

Lemma texture_write_id_witness :
  exists id,
    texture_view_id sample_validate sample_require_view_object
      sample_get_texture_view sample_texture_view = ok id
    /\ data (sample_update sample_newSamplerState texture_set
               ([] ++ [texture_write])).1 !! 1
       = Some id
    /\ (forall b,
          m_bindings texture_set !! 0%nat = Some b ->
          (1 < length (m_resources b))%nat ->
          resource_at
            (sample_update sample_newSamplerState texture_set
               ([] ++ [texture_write])).1 0 1
          = Some (Some 60)).
Proof.
  apply (texture_write_id sample_bits_per_pixel sample_validate
           sample_require_view_object id id id id 0 sample_get_texture_view
           sample_newSamplerState texture_set _ [] texture_write
           0%nat sample_texture_view).
  - reflexivity.
  - apply list_elem_of_In. simpl. left. reflexivity.
  - first [simpl; lia | vm_compute; lia].
  - reflexivity.
Defined.

Lemma sampler_key_shared_witness :
  exists s1 s2,
    sample_newSamplerState (sampler_descriptor id id id id 0 sample_sampler)
    = Some s1
    /\ sample_newSamplerState (sampler_descriptor id id id id 0 sample_sampler)
       = Some s2
    /\ m_samplers
         (sample_update sample_newSamplerState sampler_set
            ([] ++ [sampler_write_2_1])).1 !! 3
       = Some s1
    /\ m_samplers
         (sample_update sample_newSamplerState
            (sample_update sample_newSamplerState sampler_set
               ([] ++ [sampler_write_2_1])).1 [sampler_write_3_0]).1 !! 3
       = Some s2.
Proof.
  apply (sampler_key_shared sample_bits_per_pixel sample_validate
           sample_require_view_object id id id id 0 sample_get_texture_view
           sample_newSamplerState sampler_set _ _ [] sampler_write_2_1
           sampler_write_3_0 0%nat 0%nat sample_sampler sample_sampler).
  - reflexivity.
  - reflexivity.
  - reflexivity.
  - reflexivity.
  - first [simpl; lia | vm_compute; lia].
  - first [simpl; lia | vm_compute; lia].
  - reflexivity.
  - reflexivity.
  - reflexivity.
Defined.

Lemma init_argument_buffer_witness :
  exists ds,
    sample_init variable_desc = ok ds
    /\ sample_newBuffer (8 * (3 + 5)) 0 = Some (m_buffer ds)
    /\ m_layout ds = layout variable_desc
    /\ length (m_bindings ds) = 3%nat.
Proof.
  eexists. split; [reflexivity|].
  apply (init_argument_buffer 1 1 2 0 0 0 sample_newBuffer variable_desc).
  - first [simpl; lia | vm_compute; lia].
  - first [simpl; lia | vm_compute; lia].
  - first [simpl; lia | vm_compute; lia].
  - reflexivity.
Defined.

Lemma init_then_buffer_write_witness :
  sample_init sample_desc = ok created_set
  /\ resource_at
       (sample_update sample_newSamplerState created_set
          ([uniform_write] ++ [typed_write])).1 1 0
     = Some (Some 41).
Proof.
  split; [reflexivity|].
  apply (init_then_buffer_write 1 1 2 0 0 0 sample_newBuffer
           sample_bits_per_pixel sample_validate
           sample_require_view_object id id id id 0 sample_get_texture_view
           sample_newSamplerState sample_desc created_set _ [uniform_write]
           typed_write 0%nat typed_view
           {| layout_type := read_buffer_view; layout_binding_slot := 1;
              num_descs := 1; shader_visibility_flags := 1 |}).
  - reflexivity.
  - reflexivity.
  - apply list_elem_of_In. simpl. right. left. reflexivity.
  - reflexivity.
  - reflexivity.
  - discriminate.
  - simpl. lia.
  - simpl. lia.
  - simpl. lia.
Defined.

End DescriptorSetInitFacts.
(** ** D3D12 resource heap: the description of a created heap *)
Module ResourceHeapInitFacts.
Import Runtime ResourceHeap.

(** A mask that has the bits of another has every flag the other has. *)
Lemma test_flags_mono (u u' flag : Z) :
  Z.land u u' = u ->
  test_flags u flag = true -> test_flags u' flag = true.
Proof.
  unfold test_flags. rewrite !Z.eqb_eq. intros Hsub Hflag.
  rewrite <- Hflag at 1. rewrite Z.land_assoc, (Z.land_comm u' u), Hsub.
  exact Hflag.
Qed.

Section Declarations.

Variable buffer : Z.
Variable texture_rt_ds : Z.
Variable texture_non_rt_ds : Z.
Variable texture_msaa : Z.
Variable encode_heap_properties : Z -> D3D12_HEAP_PROPERTIES.
Variable encode_d3d12_error : Z -> ErrCode.
Variable CreateHeap : D3D12_HEAP_DESC -> Z.

Local Abbreviation heap_desc' :=
  (heap_desc buffer texture_rt_ds texture_non_rt_ds texture_msaa
     encode_heap_properties).
Local Abbreviation init' :=
  (init buffer texture_rt_ds texture_non_rt_ds texture_msaa
     encode_heap_properties encode_d3d12_error CreateHeap).

Lemma init_created (heap heap' : ResourceHeap) (desc : ResourceHeapDesc) :
  init' heap desc = (heap', ok tt) ->
  m_heap heap' = Some {| GetDesc := heap_desc' desc |}
  /\ 0 <= CreateHeap (heap_desc' desc).
Proof.
  unfold init, FAILED. intros Hinit.
  destruct (Z.ltb_spec (CreateHeap (heap_desc' desc)) 0); [discriminate|].
  injection Hinit as <-. split; [reflexivity|assumption].
Qed.

(** X14.  A created heap carries no flag but the deny flags.  The heap
    [init] creates was asked for with Direct3D's answer not a failure; its
    flags have no bit outside the three deny flags, they are zero exactly
    when all three resource categories are among the usages, and its
    alignment is the MSAA placement alignment or zero. *)
Theorem heap_flags_only_deny (heap heap' : ResourceHeap)
    (desc : ResourceHeapDesc) :
  init' heap desc = (heap', ok tt) ->
  exists h,
    m_heap heap' = Some h
    /\ 0 <= CreateHeap (GetDesc h)
    /\ Z.land (Flags (GetDesc h))
         (Z.lnot (Z.lor (Z.lor D3D12_HEAP_FLAG_DENY_BUFFERS
                           D3D12_HEAP_FLAG_DENY_RT_DS_TEXTURES)
                    D3D12_HEAP_FLAG_DENY_NON_RT_DS_TEXTURES)) = 0
    /\ (Flags (GetDesc h) = 0
        <-> test_flags (usages desc) buffer = true
            /\ test_flags (usages desc) texture_rt_ds = true
            /\ test_flags (usages desc) texture_non_rt_ds = true)
    /\ Alignment (GetDesc h)
       = (if test_flags (usages desc) texture_msaa
          then D3D12_DEFAULT_MSAA_RESOURCE_PLACEMENT_ALIGNMENT else 0)
    /\ SizeInBytes (GetDesc h) = size desc.
Proof.
  intros Hinit. destruct (init_created heap heap' desc Hinit) as [Hheap Hhr].
  eexists. split; [exact Hheap|]. simpl.
  split; [exact Hhr|].
  destruct (test_flags (usages desc) buffer),
           (test_flags (usages desc) texture_rt_ds),
           (test_flags (usages desc) texture_non_rt_ds);
    split_and!; try reflexivity; split;
    solve [ intros; split_and!; reflexivity
          | intros; reflexivity
          | intros H; vm_compute in H; discriminate H
          | intros (H1 & H2 & H3); discriminate ].
Qed.

(** X15.  More usages, fewer deny flags.  If every bit of one usage mask
    is in another, the heap description made for the second mask has no
    deny flag that the description made for the first one lacks. *)
Theorem heap_flags_antitone (desc desc' : ResourceHeapDesc) :
  Z.land (usages desc) (usages desc') = usages desc ->
  Z.land (Flags (heap_desc' desc')) (Flags (heap_desc' desc))
  = Flags (heap_desc' desc').
Proof.
  intros Hsub. unfold heap_desc. simpl.
  pose proof (test_flags_mono _ _ buffer Hsub) as Hb.
  pose proof (test_flags_mono _ _ texture_rt_ds Hsub) as Hrt.
  pose proof (test_flags_mono _ _ texture_non_rt_ds Hsub) as Hnon.
  destruct (test_flags (usages desc) buffer);
    [rewrite (Hb eq_refl)|clear Hb];
    (destruct (test_flags (usages desc) texture_rt_ds);
     [rewrite (Hrt eq_refl)|clear Hrt]);
    (destruct (test_flags (usages desc) texture_non_rt_ds);
     [rewrite (Hnon eq_refl)|clear Hnon]);
    repeat match goal with
           | |- context [test_flags ?u ?f] => destruct (test_flags u f)
           end;
    reflexivity.
Qed.

End Declarations.

Lemma heap_flags_only_deny_witness :
  exists h,
    m_heap (sample_init {| m_heap := None |} buffer_only).1 = Some h
    /\ 0 <= (λ _ : D3D12_HEAP_DESC, 0) (GetDesc h)
    /\ Z.land (Flags (GetDesc h))
         (Z.lnot (Z.lor (Z.lor D3D12_HEAP_FLAG_DENY_BUFFERS
                           D3D12_HEAP_FLAG_DENY_RT_DS_TEXTURES)
                    D3D12_HEAP_FLAG_DENY_NON_RT_DS_TEXTURES)) = 0
    /\ (Flags (GetDesc h) = 0
        <-> test_flags (usages buffer_only) 1 = true
            /\ test_flags (usages buffer_only) 2 = true
            /\ test_flags (usages buffer_only) 4 = true)
    /\ Alignment (GetDesc h)
       = (if test_flags (usages buffer_only) 8
          then D3D12_DEFAULT_MSAA_RESOURCE_PLACEMENT_ALIGNMENT else 0)
    /\ SizeInBytes (GetDesc h) = size buffer_only.
Proof.
  apply (heap_flags_only_deny 1 2 4 8 sample_heap_properties platform_error
           (λ _, 0) {| m_heap := None |}
           (sample_init {| m_heap := None |} buffer_only).1 buffer_only).
  reflexivity.
Defined.

Lemma heap_flags_antitone_witness :
  Z.land
    (Flags (heap_desc 1 2 4 8 sample_heap_properties
              {| type := 0; size := 65536; usages := 3 |}))
    (Flags (heap_desc 1 2 4 8 sample_heap_properties buffer_only))
  = Flags (heap_desc 1 2 4 8 sample_heap_properties
             {| type := 0; size := 65536; usages := 3 |}).
Proof.
  apply (heap_flags_antitone 1 2 4 8 sample_heap_properties buffer_only
           {| type := 0; size := 65536; usages := 3 |}).
  reflexivity.
Defined.

End ResourceHeapInitFacts.

